(** * Media server: the record lifecycle, the file store and the HTTP envelope

    A shallow embedding of [src/media/service.ts], [src/media/middleware.ts],
    [src/media/api.ts], [src/middleware.ts] and [src/model.ts].

    - A request body is an untyped JavaScript object: a finite map from
      property names to JSON values ([gmap string value]); a property that
      is absent reads as [undefined], that is [None]. Numbers are integers:
      nothing in the service computes with a number, it only asks for its
      type, whether it is zero, and whether it equals an identifier.
    - The [Media] table is a list of rows in insertion order. The module
      [db] is a collaborator of the service and is not part of these
      sources; the table is taken to keep exactly what the service writes
      into it, each column holding a value of the type that [type Media]
      of service.ts declares for it, and to refuse a value of another
      type. Of the table declaration (sqlite/schema.ts) the model has the
      primary key [id], the columns that cannot be null and the nullable
      [deletedAt]; it has no column that is refreshed on update. It does
      not have the default of [createdAt] and [updatedAt] on insertion,
      the uniqueness of [storedFileName], nor the counter behind the
      identifier of a new row: the statements of the second part that
      insert or rename a row say so in their hypotheses, and speak of a
      new identifier only as one that no row has. An update that sets no
      column, and a value that does not fit its column, are refused by
      the model in its own way; the statements on the modify route are
      about bodies that set a column and fit.
    - The service is effectful: it reads and writes the table, the upload
      directory, the clock and the console. All of that is one [World]
      threaded through a state-and-exception monad [M]; [await] is
      sequencing in [M].
    - Library functions of the platform ([path.join], [path.extname],
      [imageSize], the clock, the unique suffix of a stored name) are the
      fields of a [Host]. *)

From Stdlib Require Import ZArith String Ascii List Bool Lia.
From stdpp Require Import base option list gmap strings.

Local Open Scope Z_scope.
Local Open Scope string_scope.

(** ** JavaScript values *)

Set Warnings "-register-all".

Inductive value :=
| VNull
| VBool (b : bool)
| VNum (n : Z)
| VStr (s : string)
| VArr (items : list value)
| VObj (fields : list (string * value)).

(** [typeof v] *)
Definition typeof (v : value) : string :=
  match v with
  | VNull => "object"
  | VBool _ => "boolean"
  | VNum _ => "number"
  | VStr _ => "string"
  | VArr _ => "object"
  | VObj _ => "object"
  end.

(** [!!v]: [null], [false], [0] and the empty string are falsy. *)
Definition truthy (v : value) : bool :=
  match v with
  | VNull => false
  | VBool b => b
  | VNum n => negb (Z.eqb n 0)
  | VStr s => negb (String.eqb s "")
  | VArr _ => true
  | VObj _ => true
  end.

(** A property read [o.k]; [None] is [undefined], which is falsy. *)
Definition prop_truthy (p : option value) : bool :=
  match p with
  | Some v => truthy v
  | None => false
  end.

(** ** model.ts *)

Inductive HttpStatusCode :=
| OK
| Created
| BadRequest
| Unauthorized
| Forbidden
| NotFound
| InternalServerError.

Definition status_number (c : HttpStatusCode) : Z :=
  match c with
  | OK => 200
  | Created => 201
  | BadRequest => 400
  | Unauthorized => 401
  | Forbidden => 403
  | NotFound => 404
  | InternalServerError => 500
  end.

(** The error classes. [Error] is the base class, also for what a library
    throws; [SystemError] is an [Error] of the platform, which carries a
    [code] such as ENOENT. *)
Inductive exn :=
| Error (msg : string)
| SystemError (errno : string) (msg : string)
| NotFoundError (msg : string)
| ValidationError (msg : string)
| UnauthorizedError (msg : string).

(** [err.message] *)
Definition message (e : exn) : string :=
  match e with
  | Error m => m
  | SystemError _ m => m
  | NotFoundError m => m
  | ValidationError m => m
  | UnauthorizedError m => m
  end.

(** [err.code]; [None] is [undefined]. *)
Definition code_of (e : exn) : option string :=
  match e with
  | SystemError c _ => Some c
  | _ => None
  end.

(** ** The table *)

Record Media := {
  id : Z;
  originalFileName : string;
  storedFileName : string;
  mimeType : string;
  width : Z;
  height : Z;
  fileSize : Z;
  createdAt : string;
  updatedAt : string;
  deletedAt : option string
}.

(** The argument of [.set(...)]: the columns to overwrite. *)
Record Columns := {
  set_id : option Z;
  set_originalFileName : option string;
  set_storedFileName : option string;
  set_mimeType : option string;
  set_width : option Z;
  set_height : option Z;
  set_fileSize : option Z;
  set_createdAt : option string;
  set_updatedAt : option string;
  set_deletedAt : option (option string)
}.

Definition no_columns : Columns :=
  {| set_id := None; set_originalFileName := None; set_storedFileName := None;
     set_mimeType := None; set_width := None; set_height := None;
     set_fileSize := None; set_createdAt := None; set_updatedAt := None;
     set_deletedAt := None |}.

Definition write_columns (c : Columns) (r : Media) : Media :=
  {| id := default (id r) (set_id c);
     originalFileName := default (originalFileName r) (set_originalFileName c);
     storedFileName := default (storedFileName r) (set_storedFileName c);
     mimeType := default (mimeType r) (set_mimeType c);
     width := default (width r) (set_width c);
     height := default (height r) (set_height c);
     fileSize := default (fileSize r) (set_fileSize c);
     createdAt := default (createdAt r) (set_createdAt c);
     updatedAt := default (updatedAt r) (set_updatedAt c);
     deletedAt := default (deletedAt r) (set_deletedAt c) |}.

(** ** The world and the monad *)

Definition content := string.

Record World := {
  table : list Media;             (* rows, in insertion order *)
  files : gmap string content;    (* the disk: path to content *)
  refused : gmap string string;   (* paths the system refuses to unlink, with the error code *)
  ticks : nat;                    (* readings of the clock so far *)
  console : list string           (* lines written by console.error *)
}.

Inductive outcome (A : Type) :=
| Val (a : A)
| Thrown (e : exn).
Arguments Val {A} a.
Arguments Thrown {A} e.

Definition M (A : Type) : Type := World → outcome A * World.

Definition ret {A} (a : A) : M A := λ w, (Val a, w).
Definition throw {A} (e : exn) : M A := λ w, (Thrown e, w).
Definition bind {A B} (m : M A) (k : A → M B) : M B :=
  λ w, match m w with
       | (Val a, w') => k a w'
       | (Thrown e, w') => (Thrown e, w')
       end.
(** [try { m } catch (err) { h err }] *)
Definition try_catch {A} (m : M A) (h : exn → M A) : M A :=
  λ w, match m w with
       | (Val a, w') => (Val a, w')
       | (Thrown e, w') => h e w'
       end.

Declare Scope m_scope.
Delimit Scope m_scope with M.
Notation "'let!' x ':=' m 'in' k" := (bind m (λ x, k))
  (at level 10, x pattern, m at level 100, k at level 200,
   format "'[v' 'let!'  x  ':='  m  'in' '/' k ']'") : m_scope.
Notation "m ';;' k" := (bind m (λ _, k))
  (at level 100, k at level 200, right associativity) : m_scope.
Local Open Scope m_scope.

Definition get_table : M (list Media) := λ w, (Val (table w), w).
Definition put_table (t : list Media) : M unit := λ w,
  (Val tt, {| table := t; files := files w; refused := refused w;
              ticks := ticks w; console := console w |}).
Definition console_error (line : string) : M unit := λ w,
  (Val tt, {| table := table w; files := files w; refused := refused w;
              ticks := ticks w; console := (console w ++ [line])%list |}).

(** ** The platform *)

Record Dimensions := {
  dim_width : option Z;
  dim_height : option Z
}.

Record Host := {
  toISOString : nat → string;     (* [new Date().toISOString()] at the k-th reading of the clock *)
  uniqueSuffix : nat → string;    (* [Date.now() + "-" + Math.round(Math.random() * 1e9)] at the k-th reading *)
  path_join : string → string → string;
  path_extname : string → string;
  imageSize : content → outcome Dimensions
}.

(** ** The collaborator [db]: queries on the [Media] table *)

Definition has_id (i : Z) (r : Media) : bool := Z.eqb (id r) i.

(** [db.select().from(Media).where(eq(Media.id, i))] *)
Definition db_select (i : Z) : M (list Media) :=
  let! t := get_table in
  ret (List.filter (has_id i) t).

(** [db.select().from(Media).where(eq(Media.id, i)).limit(1)] *)
Definition db_select_limit1 (i : Z) : M (list Media) :=
  let! rows := db_select i in
  ret (take 1 rows).

(** [db.update(Media).set(c).where(eq(Media.id, i)).returning()] *)
Definition db_update (c : Columns) (i : Z) : M (list Media) :=
  let! t := get_table in
  let t' := List.map (λ r, if has_id i r then write_columns c r else r) t in
  put_table t';;
  ret (List.map (write_columns c) (List.filter (has_id i) t)).

(** [db.delete(Media).where(eq(Media.id, i))]; the result is [rowsAffected]. *)
Definition db_delete (i : Z) : M nat :=
  let! t := get_table in
  put_table (List.filter (λ r, negb (has_id i r)) t);;
  ret (length (List.filter (has_id i) t)).

(** *** Untyped values handed to the driver

    An object reaches [set] or [values] from a request body, so a property
    may hold anything. A property that is absent leaves its column alone; a
    value of the column's type is written; any other value is refused. *)

Definition bind_text (p : option value) : option (option string) :=
  match p with
  | None => Some None
  | Some (VStr s) => Some (Some s)
  | Some _ => None
  end.

Definition bind_integer (p : option value) : option (option Z) :=
  match p with
  | None => Some None
  | Some (VNum n) => Some (Some n)
  | Some _ => None
  end.

Definition bind_nullable_text (p : option value) : option (option (option string)) :=
  match p with
  | None => Some None
  | Some VNull => Some (Some None)
  | Some (VStr s) => Some (Some (Some s))
  | Some _ => None
  end.

Definition bind_columns (o : gmap string value) : option Columns :=
  c_id ← bind_integer (o !! "id");
  c_originalFileName ← bind_text (o !! "originalFileName");
  c_storedFileName ← bind_text (o !! "storedFileName");
  c_mimeType ← bind_text (o !! "mimeType");
  c_width ← bind_integer (o !! "width");
  c_height ← bind_integer (o !! "height");
  c_fileSize ← bind_integer (o !! "fileSize");
  c_createdAt ← bind_text (o !! "createdAt");
  c_updatedAt ← bind_text (o !! "updatedAt");
  c_deletedAt ← bind_nullable_text (o !! "deletedAt");
  Some {| set_id := c_id; set_originalFileName := c_originalFileName;
          set_storedFileName := c_storedFileName; set_mimeType := c_mimeType;
          set_width := c_width; set_height := c_height;
          set_fileSize := c_fileSize; set_createdAt := c_createdAt;
          set_updatedAt := c_updatedAt; set_deletedAt := c_deletedAt |}.

Definition refusal : exn := Error "value does not fit the column".

(** [db.update(Media).set(updates).where(eq(Media.id, key)).returning()]
    with an untyped [updates] and an untyped [key]. *)
Definition db_update_values (updates : gmap string value) (key : option value)
  : M (list Media) :=
  match bind_columns updates, key with
  | Some c, Some (VNum i) => db_update c i
  | _, _ => throw refusal
  end.

(** The identifier the table assigns to a row inserted without one. *)
Definition fresh_id (t : list Media) : Z :=
  1 + fold_right Z.max 0 (List.map id t).

Definition new_row (i : Z) (c : Columns) : option Media :=
  c_originalFileName ← set_originalFileName c;
  c_storedFileName ← set_storedFileName c;
  c_mimeType ← set_mimeType c;
  c_width ← set_width c;
  c_height ← set_height c;
  c_fileSize ← set_fileSize c;
  c_createdAt ← set_createdAt c;
  c_updatedAt ← set_updatedAt c;
  Some {| id := i; originalFileName := c_originalFileName;
          storedFileName := c_storedFileName; mimeType := c_mimeType;
          width := c_width; height := c_height; fileSize := c_fileSize;
          createdAt := c_createdAt; updatedAt := c_updatedAt;
          deletedAt := default None (set_deletedAt c) |}.

(** [db.insert(Media).values(v).returning()]: one new row, at the end. *)
Definition db_insert (v : gmap string value) : M (list Media) :=
  let! t := get_table in
  match bind_columns v with
  | None => throw refusal
  | Some c =>
      let i := default (fresh_id t) (set_id c) in
      match new_row i c with
      | None => throw (Error "NOT NULL constraint failed")
      | Some r =>
          if existsb (has_id i) t
          then throw (Error "UNIQUE constraint failed")
          else put_table (t ++ [r])%list;; ret [r]
      end
  end.

(** ** The disk *)

Definition put_files (f : gmap string content) : M unit := λ w,
  (Val tt, {| table := table w; files := f; refused := refused w;
              ticks := ticks w; console := console w |}).

(** [fs.readFile(p)] *)
Definition fs_readFile (p : string) : M content := λ w,
  match files w !! p with
  | Some c => (Val c, w)
  | None => (Thrown (SystemError "ENOENT" "no such file or directory"), w)
  end.

(** [fs.unlink(p)]: fails with the system's code when the system refuses,
    with ENOENT when there is no such file, and removes the file otherwise. *)
Definition fs_unlink (p : string) : M unit := λ w,
  match refused w !! p with
  | Some errno => (Thrown (SystemError errno "unlink failed"), w)
  | None =>
      match files w !! p with
      | None => (Thrown (SystemError "ENOENT" "no such file or directory"), w)
      | Some _ => put_files (delete p (files w)) w
      end
  end.

(** The disk storage engine writing an accepted upload. *)
Definition fs_writeFile (p : string) (c : content) : M unit := λ w,
  put_files (<[p := c]> (files w)) w.

(** ** service.ts *)

Record UploadedFile := {
  originalname : string;
  filename : string;
  mimetype : string;
  size : Z;
  path : string
}.

(** [data.k !== undefined && typeof data.k !== "number"] *)
Definition defined_not_number (p : option value) : bool :=
  match p with
  | Some v => negb (String.eqb (typeof v) "number")
  | None => false
  end.

(** [!n] for an optional number *)
Definition number_falsy (n : option Z) : bool :=
  match n with
  | Some k => Z.eqb k 0
  | None => true
  end.

(** Validation for create (service.ts 65-73) *)
Definition validateCreate (data : gmap string value) : M unit :=
  if negb (prop_truthy (data !! "originalFileName")) then throw (Error "Missing originalFileName")
  else if negb (prop_truthy (data !! "storedFileName")) then throw (Error "Missing storedFileName")
  else if negb (prop_truthy (data !! "mimeType")) then throw (Error "Missing mimeType")
  else if negb (prop_truthy (data !! "width")) then throw (Error "Missing width")
  else if negb (prop_truthy (data !! "height")) then throw (Error "Missing height")
  else if negb (prop_truthy (data !! "fileSize")) then throw (Error "Missing fileSize")
  else ret tt.

(** Validation for update (service.ts 76-84) *)
Definition validateUpdate (data : gmap string value) : M unit :=
  if defined_not_number (data !! "width") then throw (Error "Width must be a number")
  else if defined_not_number (data !! "height") then throw (Error "Height must be a number")
  else ret tt.

Definition getAll : M (list Media) := get_table.

Definition getById (i : Z) : M (list Media) := db_select i.

(** create (service.ts 94-100) *)
Definition create (model : gmap string value) : M (option Media) :=
  validateCreate model;;
  let! inserted := db_insert model in
  ret (head inserted).

(** update (service.ts 102-116) *)
Definition update (model : gmap string value) : M (option Media) :=
  validateUpdate model;;
  let updates := delete "id" model in
  let! result := db_update_values updates (model !! "id") in
  match result with
  | [] => throw (NotFoundError "No record found with the provided id")
  | _ :: _ => ret (head result)
  end.

(** createOrUpdate (service.ts 227-235) *)
Definition createOrUpdate (model : gmap string value) : M (option Media) :=
  if prop_truthy (model !! "id") then update model else create model.

Section Service.
Context (host : Host).

(** [new Date().toISOString()] *)
Definition now : M string := λ w,
  (Val (toISOString host (ticks w)),
   {| table := table w; files := files w; refused := refused w;
      ticks := S (ticks w); console := console w |}).

Definition getImageDimensions (file : UploadedFile) : M Dimensions :=
  let! buffer := fs_readFile (path file) in
  let! dimensions := (λ w, (imageSize host buffer, w)) in
  if number_falsy (dim_width dimensions) || number_falsy (dim_height dimensions)
  then throw (Error "Could not determine image dimensions")
  else ret dimensions.

(** remove (service.ts 119-142) *)
Definition remove (i : Z) : M nat :=
  let! rows := db_select_limit1 i in
  match rows with
  | [] => throw (NotFoundError "Media not found")
  | record :: _ =>
      let! deleteResult := db_delete i in
      let filePath := path_join host "./uploads" (storedFileName record) in
      try_catch (fs_unlink filePath)
        (λ err,
           if decide (code_of err = Some "ENOENT") then ret tt
           else console_error ("Failed to delete file: " +:+ filePath));;
      ret deleteResult
  end.

(** softDelete (service.ts 144-171) *)
Definition softDelete (i : Z) : M (option Media) :=
  let! rows := db_select_limit1 i in
  match rows with
  | [] => throw (NotFoundError "Media not found")
  | currentRecord :: _ =>
      match deletedAt currentRecord with
      | Some _ => throw (ValidationError "Record is already deleted")
      | None =>
          let! deleted := now in
          let! updated := now in
          let! result :=
            db_update {| set_id := None; set_originalFileName := None;
                         set_storedFileName := None; set_mimeType := None;
                         set_width := None; set_height := None;
                         set_fileSize := None; set_createdAt := None;
                         set_updatedAt := Some updated;
                         set_deletedAt := Some (Some deleted) |} i in
          ret (head result)
      end
  end.

(** restore (service.ts 172-198) *)
Definition restore (i : Z) : M (option Media) :=
  let! rows := db_select_limit1 i in
  match rows with
  | [] => throw (NotFoundError "Media not found")
  | currentRecord :: _ =>
      match deletedAt currentRecord with
      | None => throw (ValidationError "Record is not deleted")
      | Some _ =>
          let! updated := now in
          let! result :=
            db_update {| set_id := None; set_originalFileName := None;
                         set_storedFileName := None; set_mimeType := None;
                         set_width := None; set_height := None;
                         set_fileSize := None; set_createdAt := None;
                         set_updatedAt := Some updated;
                         set_deletedAt := Some None |} i in
          ret (head result)
      end
  end.

(** createFromFile (service.ts 201-224) *)
Definition createFromFile (upload : option UploadedFile) : M (option Media) :=
  match upload with
  | None => throw (Error "No file uploaded")
  | Some file =>
      let! dimensions := getImageDimensions file in
      if number_falsy (dim_width dimensions) || number_falsy (dim_height dimensions)
      then throw (Error "Could not determine image dimensions")
      else
        let! created := now in
        let! updated := now in
        let mediaInput : gmap string value :=
          list_to_map
            [("originalFileName", VStr (originalname file));
             ("storedFileName", VStr (filename file));
             ("mimeType", VStr (mimetype file));
             ("width", VNum (default 0 (dim_width dimensions)));
             ("height", VNum (default 0 (dim_height dimensions)));
             ("fileSize", VNum (size file));
             ("createdAt", VStr created);
             ("updatedAt", VStr updated);
             ("deletedAt", VNull)] in
        create mediaInput
  end.

End Service.

(** ** media/middleware.ts: the upload middleware *)

(** The file part of a multipart request. *)
Record Part := {
  part_originalname : string;
  part_mimetype : string;
  part_content : content
}.

(** [fileFilter]: what it hands to its callback. *)
Definition fileFilter (file : Part) : outcome bool :=
  if String.prefix "image/" (part_mimetype file)
  then Val true
  else Thrown (Error "Only image files are allowed").

Section Upload.
Context (host : Host).

(** [storage.filename]: the unique suffix followed by the extension. *)
Definition storage_filename (file : Part) : M string := λ w,
  (Val (uniqueSuffix host (ticks w) +:+ path_extname host (part_originalname file)),
   {| table := table w; files := files w; refused := refused w;
      ticks := S (ticks w); console := console w |}).

(** [upload.single("file")]: the filter is asked first; only a file it
    accepts is given a name and written under ./uploads. *)
Definition upload_single (part : option Part) : M (option UploadedFile) :=
  match part with
  | None => ret None
  | Some file =>
      match fileFilter file with
      | Thrown err => throw err
      | Val false => ret None
      | Val true =>
          let! name := storage_filename file in
          let target := path_join host "./uploads" name in
          fs_writeFile target (part_content file);;
          ret (Some {| originalname := part_originalname file;
                       filename := name;
                       mimetype := part_mimetype file;
                       size := Z.of_nat (String.length (part_content file));
                       path := target |})
      end
  end.

End Upload.

(** ** middleware.ts: the envelope and the central error handler *)

Inductive Data :=
| DNull
| DList (rows : list Media)
| DMedia (row : option Media)
| DMessage (text : string).

Record ApiResponse := {
  data : Data;
  code : HttpStatusCode;
  msg : option string
}.

(** What the client receives: the status line and the JSON body. *)
Record Response := {
  status : Z;
  body : ApiResponse
}.

(** [res.sendApiResponse(data, code, msg)] as [apiResponseMiddleware]
    installs it: [res.status(code).json({ data, code, msg })]. *)
Definition sendApiResponse (d : Data) (c : HttpStatusCode) (m : option string) : Response :=
  let apiResponse := {| data := d; code := c; msg := m |} in
  {| status := status_number c; body := apiResponse |}.

Definition notFoundMiddleware : Response :=
  sendApiResponse DNull NotFound (Some "API route not found").

Definition errorHandler (err : exn) : Response :=
  match err with
  | NotFoundError m => sendApiResponse DNull NotFound (Some (message err))
  | ValidationError m => sendApiResponse DNull BadRequest (Some (message err))
  | UnauthorizedError m => sendApiResponse DNull Unauthorized (Some (message err))
  | _ => sendApiResponse DNull InternalServerError (Some (message err))
  end.

(** ** media/api.ts: the routes *)

(** A string is the sequence of the bytes of its UTF-8 form, as a string
    literal of this file is. The white space that [parseInt] strips
    (StrWhiteSpaceChar of the language) is TAB, LF, VT, FF, CR and the
    space, which are one byte each, and U+00A0, U+1680, U+2000 to U+200A,
    U+2028, U+2029, U+202F, U+205F, U+3000 and U+FEFF, which are two or
    three bytes. *)
Definition is_space (c : ascii) : bool :=
  let n := N_of_ascii c in
  (N.eqb n 32 || (N.leb 9 n && N.leb n 13))%N.

Definition is_byte (n : N) (c : ascii) : bool := N.eqb (N_of_ascii c) n.

(** The third byte of U+2000 to U+200A, U+2028, U+2029 and U+202F, after
    the bytes E2 80. *)
Definition is_space_e2_80 (c : ascii) : bool :=
  let n := N_of_ascii c in
  ((N.leb 128 n && N.leb n 138) || N.eqb n 168 || N.eqb n 169 || N.eqb n 175)%N.

Definition digit_of (c : ascii) : option Z :=
  let n := Z.of_N (N_of_ascii c) in
  if Z.leb 48 n && Z.leb n 57 then Some (n - 48) else None.

Fixpoint skip_space (s : string) : string :=
  match s with
  | String c rest =>
      if is_space c then skip_space rest
      else
        match rest with
        | String c2 rest2 =>
            if is_byte 194 c && is_byte 160 c2 then skip_space rest2
            else
              match rest2 with
              | String c3 rest3 =>
                  if (is_byte 225 c && is_byte 154 c2 && is_byte 128 c3)
                     || (is_byte 226 c && is_byte 128 c2 && is_space_e2_80 c3)
                     || (is_byte 226 c && is_byte 129 c2 && is_byte 159 c3)
                     || (is_byte 227 c && is_byte 128 c2 && is_byte 128 c3)
                     || (is_byte 239 c && is_byte 187 c2 && is_byte 191 c3)
                  then skip_space rest3
                  else s
              | EmptyString => s
              end
        | EmptyString => s
        end
  | EmptyString => s
  end.

Fixpoint read_digits (s : string) (acc : option Z) : option Z :=
  match s with
  | String c rest =>
      match digit_of c with
      | Some d => read_digits rest (Some (10 * default 0 acc + d))
      | None => acc
      end
  | EmptyString => acc
  end.

(** The Number nearest to the integer [n]: [n] itself up to 2^53, beyond
    it the multiple of the spacing with 53 significant bits that is
    nearest, the even one at a tie. (Past the largest Number the language
    has Infinity, which is the identifier of no row; the model keeps the
    integer.) *)
Definition to_number (n : Z) : Z :=
  let m := Z.abs n in
  if Z.ltb m (2 ^ 53) then n
  else
    let e := Z.log2 m - 52 in
    let q := Z.shiftr m e in
    let r := m - Z.shiftl q e in
    let half := Z.shiftl 1 (e - 1) in
    let q' := if Z.ltb half r || (Z.eqb r half && Z.odd q) then q + 1 else q in
    Z.sgn n * Z.shiftl q' e.

(** [parseInt(s, 10)]; [None] is [NaN]. *)
Definition parseInt (s : string) : option Z :=
  match skip_space s with
  | String "-"%char rest => Z.opp <$> (to_number <$> read_digits rest None)
  | String "+"%char rest => to_number <$> read_digits rest None
  | t => to_number <$> read_digits t None
  end.

(** [const id = parseInt(req.params.id, 10); if (isNaN(id)) throw ...] *)
Definition param_id (raw : string) : M Z :=
  match parseInt raw with
  | None => throw (ValidationError "Invalid ID")
  | Some i => ret i
  end.

(** Every route is [try { ... } catch (err) { next(err) }], and [next(err)]
    reaches [errorHandler]. *)
Definition route (handler : M Response) : World → Response * World := λ w,
  match handler w with
  | (Val r, w') => (r, w')
  | (Thrown err, w') => (errorHandler err, w')
  end.

(** The requests that reach the media router, that is, that went through
    [apiResponseMiddleware]. [Rejected err] is a request that the router
    or a middleware of a route refuses with [err] before the handler runs
    (a path parameter that cannot be decoded, a multipart body that the
    upload middleware cannot read); [Unrouted] is one that no route
    matches. What is answered ahead of the router, or beside it, is in
    [Incoming] below. *)
Inductive Request :=
| GET_media
| POST_media (part : option Part)
| PUT_media (raw_id : string) (req_body : gmap string value)
| DELETE_media (raw_id : string)
| PATCH_soft_delete (raw_id : string)
| PATCH_restore (raw_id : string)
| Rejected (err : exn)
| Unrouted.

Section Api.
Context (host : Host).

Definition api_get : M Response :=
  let! result := getAll in
  ret (sendApiResponse (DList result) OK None).

Definition api_post (part : option Part) : M Response :=
  let! file := upload_single host part in
  match file with
  | None => throw (ValidationError "No file uploaded")
  | Some _ =>
      let! media := createFromFile host file in
      ret (sendApiResponse (DMedia media) Created (Some "Media stored"))
  end.

Definition api_put (raw_id : string) (req_body : gmap string value) : M Response :=
  let! i := param_id raw_id in
  let updates := req_body in
  let! result := createOrUpdate (updates ∪ {[ "id" := VNum i ]}) in
  match result with
  | None => throw (NotFoundError "Media not found")
  | Some _ => ret (sendApiResponse (DMessage "Media updated") OK None)
  end.

Definition api_delete (raw_id : string) : M Response :=
  let! i := param_id raw_id in
  let! rowsAffected := remove host i in
  if Nat.eqb rowsAffected 0 then throw (NotFoundError "Media not found")
  else ret (sendApiResponse DNull OK (Some "Media deleted")).

Definition api_soft_delete (raw_id : string) : M Response :=
  let! i := param_id raw_id in
  let! result := softDelete host i in
  match result with
  | None => throw (NotFoundError "Media not found")
  | Some _ => ret (sendApiResponse DNull OK (Some "Media soft-deleted"))
  end.

Definition api_restore (raw_id : string) : M Response :=
  let! i := param_id raw_id in
  let! result := restore host i in
  match result with
  | None => throw (NotFoundError "Media not found")
  | Some _ => ret (sendApiResponse DNull OK (Some "Media restored"))
  end.

(** The application: the router, then [errorHandler], then
    [notFoundMiddleware] (index.ts). *)
Definition app (req : Request) : World → Response * World :=
  match req with
  | GET_media => route api_get
  | POST_media part => route (api_post part)
  | PUT_media raw_id req_body => route (api_put raw_id req_body)
  | DELETE_media raw_id => route (api_delete raw_id)
  | PATCH_soft_delete raw_id => route (api_soft_delete raw_id)
  | PATCH_restore raw_id => route (api_restore raw_id)
  | Rejected err => λ w, (errorHandler err, w)
  | Unrouted => λ w, (notFoundMiddleware, w)
  end.

End Api.

(** ** index.ts and api.ts: the application around the media router *)






(** ** Vocabulary of the statements *)

(** The row [r] with its two mutable timestamps replaced. *)
Definition with_timestamps (updated : string) (deleted : option string) (r : Media) : Media :=
  {| id := id r;
     originalFileName := originalFileName r;
     storedFileName := storedFileName r;
     mimeType := mimeType r;
     width := width r;
     height := height r;
     fileSize := fileSize r;
     createdAt := createdAt r;
     updatedAt := updated;
     deletedAt := deleted |}.

(** The table after the rows with identifier [i] went through [f]. *)
Definition rows_changed (i : Z) (f : Media → Media) (t : list Media) : list Media :=
  List.map (λ r, if has_id i r then f r else r) t.

(** A response is an envelope when the code in its body is its status. *)
Definition envelope (r : Response) : Prop :=
  status r = status_number (code (body r)).

(** The world once the rows with identifier [i] are gone and the removal
    of the file [p] was attempted: the file goes when it is there and the
    system lets it go; a refusal other than ENOENT leaves one line on the
    console. *)
Definition after_remove (i : Z) (p : string) (w : World) : World :=
  {| table := List.filter (λ r, negb (has_id i r)) (table w);
     files := match refused w !! p with
              | Some _ => files w
              | None => delete p (files w)
              end;
     refused := refused w;
     ticks := ticks w;
     console := match refused w !! p with
                | Some errno =>
                    if decide (errno = "ENOENT") then console w
                    else (console w ++ ["Failed to delete file: " +:+ p])%list
                | None => console w
                end |}.

(** A handler all of whose responses are envelopes. *)
Definition returns_envelope (handler : M Response) : Prop :=
  ∀ w r w', handler w = (Val r, w') → envelope r.

(** ** Sample platform and worlds, for the instances below *)

Definition sample_host : Host :=
  {| toISOString := λ k, "2025-03-01T10:00:0" +:+ String (ascii_of_nat (48 + k)) ".000Z";
     uniqueSuffix := λ k, "1740823200000-" +:+ String (ascii_of_nat (48 + k)) "";
     path_join := λ dir name, "uploads/" +:+ name;
     path_extname := λ name, ".png";
     imageSize := λ _, Val {| dim_width := Some 100; dim_height := Some 50 |} |}.

Definition sample_row : Media :=
  {| id := 1;
     originalFileName := "a.png";
     storedFileName := "1740823200000-7.png";
     mimeType := "image/png";
     width := 100;
     height := 50;
     fileSize := 4;
     createdAt := "2025-03-01T09:00:00.000Z";
     updatedAt := "2025-03-01T09:00:00.000Z";
     deletedAt := None |}.

Definition sample_world : World :=
  {| table := [sample_row];
     files := {[ "uploads/1740823200000-7.png" := "\x89PNG" ]};
     refused := ∅;
     ticks := 0;
     console := [] |}.

Definition deleted_row : Media :=
  with_timestamps "2025-03-01T09:30:00.000Z" (Some "2025-03-01T09:30:00.000Z") sample_row.

Definition deleted_world : World :=
  {| table := [deleted_row];
     files := {[ "uploads/1740823200000-7.png" := "\x89PNG" ]};
     refused := ∅;
     ticks := 0;
     console := [] |}.

Definition refusing_world : World :=
  {| table := [sample_row];
     files := {[ "uploads/1740823200000-7.png" := "\x89PNG" ]};
     refused := {[ "uploads/1740823200000-7.png" := "EACCES" ]};
     ticks := 0;
     console := [] |}.

Definition empty_world : World :=
  {| table := []; files := ∅; refused := ∅; ticks := 0; console := [] |}.

(** ** Vocabulary of the further statements *)

(** The columns that soft delete and restore leave alone. *)
Definition kept_columns (r : Media)
  : Z * string * string * string * Z * Z * Z * string :=
  (id r, originalFileName r, storedFileName r, mimeType r,
   width r, height r, fileSize r, createdAt r).

(** A computation all of whose runs, returning or throwing, take a world
    to one that is [R]-related to it. *)
Definition within {A} (R : World → World → Prop) (m : M A) : Prop :=
  ∀ w, R w (m w).2.

(** Nothing happened on the disk or on the console. *)
Definition same_disk (w w' : World) : Prop :=
  files w' = files w ∧ refused w' = refused w ∧ console w' = console w.

(** The primary key of the table (schema.ts: [id] is the primary key) is
    kept: identifiers that were pairwise distinct still are. *)
Definition key_kept (w w' : World) : Prop :=
  NoDup (List.map id (table w)) → NoDup (List.map id (table w')).

(** The name and the place the disk storage gives to an upload received
    in the world [w]. *)
Definition stored_name (host : Host) (part : Part) (w : World) : string :=
  uniqueSuffix host (ticks w) +:+ path_extname host (part_originalname part).

Definition stored_path (host : Host) (part : Part) (w : World) : string :=
  path_join host "./uploads" (stored_name host part w).

(** The object [mediaInput] that [createFromFile] hands to [create]. *)
Definition media_input (name stored mime : string) (wd ht bytes : Z)
           (created updated : string) : gmap string value :=
  list_to_map
    [("originalFileName", VStr name);
     ("storedFileName", VStr stored);
     ("mimeType", VStr mime);
     ("width", VNum wd);
     ("height", VNum ht);
     ("fileSize", VNum bytes);
     ("createdAt", VStr created);
     ("updatedAt", VStr updated);
     ("deletedAt", VNull)].

(** The row that the upload of [part], decoded as [wd] by [ht], leaves in
    the table of the world [w], and the world it leaves. *)
Definition uploaded_row (host : Host) (part : Part) (wd ht : Z) (w : World) : Media :=
  {| id := fresh_id (table w);
     originalFileName := part_originalname part;
     storedFileName := stored_name host part w;
     mimeType := part_mimetype part;
     width := wd;
     height := ht;
     fileSize := Z.of_nat (String.length (part_content part));
     createdAt := toISOString host (S (ticks w));
     updatedAt := toISOString host (S (S (ticks w)));
     deletedAt := None |}.

Definition uploaded_world (host : Host) (part : Part) (wd ht : Z) (w : World) : World :=
  {| table := (table w ++ [uploaded_row host part wd ht w])%list;
     files := <[stored_path host part w := part_content part]> (files w);
     refused := refused w;
     ticks := S (S (S (ticks w)));
     console := console w |}.

(** The property that [validateCreate] reports: the first of the six, in
    the order of its tests, that is absent or falsy. *)
Definition first_missing (data : gmap string value) : option string :=
  if negb (prop_truthy (data !! "originalFileName")) then Some "originalFileName"
  else if negb (prop_truthy (data !! "storedFileName")) then Some "storedFileName"
  else if negb (prop_truthy (data !! "mimeType")) then Some "mimeType"
  else if negb (prop_truthy (data !! "width")) then Some "width"
  else if negb (prop_truthy (data !! "height")) then Some "height"
  else if negb (prop_truthy (data !! "fileSize")) then Some "fileSize"
  else None.

(** Further samples. *)
Definition sample_part : Part :=
  {| part_originalname := "b.png";
     part_mimetype := "image/png";
     part_content := "\x89PNG-b" |}.

Definition undecodable_host : Host :=
  {| toISOString := toISOString sample_host;
     uniqueSuffix := uniqueSuffix sample_host;
     path_join := path_join sample_host;
     path_extname := path_extname sample_host;
     imageSize := λ _, Thrown (Error "unsupported file type") |}.

Definition typed_body : gmap string value :=
  {[ "originalFileName" := VStr "b.png" ]}.

(** ** Lemmas on the queries *)

Lemma take1_filter {A} (f : A → bool) (l : list A) :
  take 1 (List.filter f l) = match List.find f l with Some x => [x] | None => [] end.
Proof.
  induction l as [|x l IH]; simpl; [reflexivity|].
  destruct (f x); simpl; [reflexivity | exact IH].
Qed.

Lemma head_map_filter {A B} (f : A → bool) (g : A → B) (l : list A) :
  head (List.map g (List.filter f l)) = g <$> List.find f l.
Proof.
  induction l as [|x l IH]; simpl; [reflexivity|].
  destruct (f x); simpl; [reflexivity | exact IH].
Qed.

Lemma find_none_filter {A} (f : A → bool) (l : list A) :
  List.find f l = None → List.filter f l = [].
Proof.
  induction l as [|x l IH]; simpl; [reflexivity|].
  destruct (f x); [discriminate | exact IH].
Qed.

Lemma find_has_id_none (i : Z) (t : list Media) :
  (∀ r, r ∈ t → id r ≠ i) → List.find (has_id i) t = None.
Proof.
  induction t as [|x t IH]; intros H; simpl; [reflexivity|].
  unfold has_id at 1. destruct (Z.eqb_spec (id x) i) as [E|_].
  - exfalso. apply (H x); [left | exact E].
  - apply IH. intros r Hr. apply H. right. exact Hr.
Qed.

Lemma find_has_id_some (i : Z) (t : list Media) (r : Media) :
  List.find (has_id i) t = Some r → r ∈ t ∧ id r = i.
Proof.
  intros H. apply List.find_some in H as [Hin Hid].
  split; [apply list_elem_of_In; exact Hin | apply Z.eqb_eq; exact Hid].
Qed.

Lemma db_select_limit1_run (i : Z) (w : World) :
  db_select_limit1 i w =
  (Val (match List.find (has_id i) (table w) with Some x => [x] | None => [] end), w).
Proof.
  unfold db_select_limit1, db_select, get_table, bind, ret.
  rewrite take1_filter. reflexivity.
Qed.

Lemma write_timestamps (u : string) (d : option string) (r : Media) :
  write_columns {| set_id := None; set_originalFileName := None;
                   set_storedFileName := None; set_mimeType := None;
                   set_width := None; set_height := None;
                   set_fileSize := None; set_createdAt := None;
                   set_updatedAt := Some u; set_deletedAt := Some d |} r
  = with_timestamps u d r.
Proof. reflexivity. Qed.

Lemma find_rows_changed (i : Z) (f : Media → Media) (t : list Media) (r : Media) :
  (∀ x, id (f x) = id x) →
  List.find (has_id i) t = Some r →
  List.find (has_id i) (rows_changed i f t) = Some (f r).
Proof.
  intros Hid. induction t as [|x t IH]; simpl; [discriminate|].
  destruct (has_id i x) eqn:E.
  - intros [= <-]. unfold has_id in *. rewrite Hid, E. reflexivity.
  - intros H. rewrite E. apply IH. exact H.
Qed.

Lemma rows_changed_twice (i : Z) (f g : Media → Media) (t : list Media) :
  (∀ x, id (f x) = id x) →
  rows_changed i g (rows_changed i f t) = rows_changed i (λ x, g (f x)) t.
Proof.
  intros Hid. unfold rows_changed. rewrite List.map_map.
  apply List.map_ext. intros x.
  destruct (has_id i x) eqn:E; [|rewrite E; reflexivity].
  unfold has_id in *. rewrite Hid, E. reflexivity.
Qed.

(** ** Soft delete and restore *)

Section Lifecycle.
Context (host : Host).

Lemma softDelete_missing (i : Z) (w : World) :
  List.find (has_id i) (table w) = None →
  softDelete host i w = (Thrown (NotFoundError "Media not found"), w).
Proof.
  intros Hnone. unfold softDelete, bind.
  rewrite db_select_limit1_run, Hnone. reflexivity.
Qed.

Lemma softDelete_deleted (i : Z) (w : World) (r : Media) (d : string) :
  List.find (has_id i) (table w) = Some r → deletedAt r = Some d →
  softDelete host i w = (Thrown (ValidationError "Record is already deleted"), w).
Proof.
  intros Hfind Hdel. unfold softDelete, bind.
  rewrite db_select_limit1_run, Hfind, Hdel. reflexivity.
Qed.

Lemma softDelete_active (i : Z) (w : World) (r : Media) :
  List.find (has_id i) (table w) = Some r → deletedAt r = None →
  softDelete host i w =
  (Val (Some (with_timestamps (toISOString host (S (ticks w)))
                              (Some (toISOString host (ticks w))) r)),
   {| table := rows_changed i
                 (with_timestamps (toISOString host (S (ticks w)))
                                  (Some (toISOString host (ticks w))))
                 (table w);
      files := files w; refused := refused w;
      ticks := S (S (ticks w)); console := console w |}).
Proof.
  intros Hfind Hdel. unfold softDelete, bind.
  rewrite db_select_limit1_run, Hfind, Hdel.
  unfold now, db_update, get_table, put_table, bind, ret.
  cbn [table files refused ticks console].
  rewrite head_map_filter, Hfind. reflexivity.
Qed.

Lemma restore_missing (i : Z) (w : World) :
  List.find (has_id i) (table w) = None →
  restore host i w = (Thrown (NotFoundError "Media not found"), w).
Proof.
  intros Hnone. unfold restore, bind.
  rewrite db_select_limit1_run, Hnone. reflexivity.
Qed.

Lemma restore_active (i : Z) (w : World) (r : Media) :
  List.find (has_id i) (table w) = Some r → deletedAt r = None →
  restore host i w = (Thrown (ValidationError "Record is not deleted"), w).
Proof.
  intros Hfind Hdel. unfold restore, bind.
  rewrite db_select_limit1_run, Hfind, Hdel. reflexivity.
Qed.

Lemma restore_deleted (i : Z) (w : World) (r : Media) (d : string) :
  List.find (has_id i) (table w) = Some r → deletedAt r = Some d →
  restore host i w =
  (Val (Some (with_timestamps (toISOString host (ticks w)) None r)),
   {| table := rows_changed i (with_timestamps (toISOString host (ticks w)) None) (table w);
      files := files w; refused := refused w;
      ticks := S (ticks w); console := console w |}).
Proof.
  intros Hfind Hdel. unfold restore, bind.
  rewrite db_select_limit1_run, Hfind, Hdel.
  unfold now, db_update, get_table, put_table, bind, ret.
  cbn [table files refused ticks console].
  rewrite head_map_filter, Hfind. reflexivity.
Qed.

(** C1. [softDelete i] fails with [NotFoundError] when no row has the
    identifier [i]; fails with [ValidationError] when the record's
    [deletedAt] is already set; otherwise it succeeds and every row with
    the identifier gets a [deletedAt] and an [updatedAt] read from the
    clock during the call (two consecutive readings), every other row
    and every other column being left as it was. *)
Theorem softDelete_spec (i : Z) (w : World) :
  ((∀ r, r ∈ table w → id r ≠ i) →
     softDelete host i w = (Thrown (NotFoundError "Media not found"), w))
  ∧ (∀ r d, List.find (has_id i) (table w) = Some r → deletedAt r = Some d →
     softDelete host i w = (Thrown (ValidationError "Record is already deleted"), w))
  ∧ (∀ r, List.find (has_id i) (table w) = Some r → deletedAt r = None →
     let deleted := toISOString host (ticks w) in
     let updated := toISOString host (S (ticks w)) in
     softDelete host i w =
     (Val (Some (with_timestamps updated (Some deleted) r)),
      {| table := rows_changed i (with_timestamps updated (Some deleted)) (table w);
         files := files w; refused := refused w;
         ticks := S (S (ticks w)); console := console w |})).
Proof.
  split; [|split].
  - intros Hnone. apply softDelete_missing, find_has_id_none, Hnone.
  - intros r d. apply softDelete_deleted.
  - intros r. apply softDelete_active.
Qed.

(** C2. [restore i] fails with [NotFoundError] when no row has the
    identifier [i]; fails with [ValidationError] when the record's
    [deletedAt] is already null; otherwise it succeeds, [deletedAt]
    becomes null and [updatedAt] the reading of the clock, every other
    row and every other column being left as it was. *)
Theorem restore_spec (i : Z) (w : World) :
  ((∀ r, r ∈ table w → id r ≠ i) →
     restore host i w = (Thrown (NotFoundError "Media not found"), w))
  ∧ (∀ r, List.find (has_id i) (table w) = Some r → deletedAt r = None →
     restore host i w = (Thrown (ValidationError "Record is not deleted"), w))
  ∧ (∀ r d, List.find (has_id i) (table w) = Some r → deletedAt r = Some d →
     let updated := toISOString host (ticks w) in
     restore host i w =
     (Val (Some (with_timestamps updated None r)),
      {| table := rows_changed i (with_timestamps updated None) (table w);
         files := files w; refused := refused w;
         ticks := S (ticks w); console := console w |})).
Proof.
  split; [|split].
  - intros Hnone. apply restore_missing, find_has_id_none, Hnone.
  - intros r. apply restore_active.
  - intros r d. apply restore_deleted.
Qed.

(** C3. On a record whose [deletedAt] is null, [softDelete i] followed by
    [restore i] both succeed; the record then has [deletedAt] null again
    and every column other than [updatedAt] and [deletedAt] is what it
    was before; in the table only [updatedAt] of the rows with that
    identifier differs from before the round trip. *)
Theorem softDelete_restore_roundtrip (i : Z) (w : World) (r : Media) :
  List.find (has_id i) (table w) = Some r →
  deletedAt r = None →
  ∃ r1 w1 r2 w2,
    softDelete host i w = (Val (Some r1), w1)
    ∧ restore host i w1 = (Val (Some r2), w2)
    ∧ List.find (has_id i) (table w2) = Some r2
    ∧ deletedAt r2 = None
    ∧ id r2 = id r
    ∧ originalFileName r2 = originalFileName r
    ∧ storedFileName r2 = storedFileName r
    ∧ mimeType r2 = mimeType r
    ∧ width r2 = width r
    ∧ height r2 = height r
    ∧ fileSize r2 = fileSize r
    ∧ createdAt r2 = createdAt r
    ∧ table w2 =
        rows_changed i (with_timestamps (toISOString host (S (S (ticks w)))) None) (table w).
Proof.
  intros Hfind Hdel.
  pose proof (softDelete_active i w r Hfind Hdel) as Hsd.
  set (d := toISOString host (ticks w)) in *.
  set (u := toISOString host (S (ticks w))) in *.
  set (w1 := {| table := rows_changed i (with_timestamps u (Some d)) (table w);
                files := files w; refused := refused w;
                ticks := S (S (ticks w)); console := console w |}) in *.
  assert (Hfind1 : List.find (has_id i) (table w1) = Some (with_timestamps u (Some d) r)).
  { subst w1. cbn [table]. apply find_rows_changed; [reflexivity | exact Hfind]. }
  pose proof (restore_deleted i w1 _ d Hfind1 eq_refl) as Hrs.
  eexists _, w1, _, _. split; [exact Hsd|]. split; [exact Hrs|].
  cbn [table ticks].
  split.
  { erewrite find_rows_changed; [reflexivity | reflexivity | exact Hfind1]. }
  do 9 (split; [reflexivity|]).
  subst w1. cbn [table ticks].
  rewrite rows_changed_twice by reflexivity. reflexivity.
Qed.

End Lifecycle.

Lemma softDelete_spec_witness :
  softDelete sample_host 2 sample_world
    = (Thrown (NotFoundError "Media not found"), sample_world)
  ∧ softDelete sample_host 1 deleted_world
    = (Thrown (ValidationError "Record is already deleted"), deleted_world)
  ∧ softDelete sample_host 1 sample_world
    = (Val (Some (with_timestamps "2025-03-01T10:00:01.000Z"
                                  (Some "2025-03-01T10:00:00.000Z") sample_row)),
       {| table := [with_timestamps "2025-03-01T10:00:01.000Z"
                                    (Some "2025-03-01T10:00:00.000Z") sample_row];
          files := files sample_world; refused := ∅; ticks := 2; console := [] |}).
Proof.
  split; [|split].
  - apply (proj1 (softDelete_spec sample_host 2 sample_world)).
    intros r Hr. apply list_elem_of_singleton in Hr. subst r. simpl. lia.
  - apply (proj1 (proj2 (softDelete_spec sample_host 1 deleted_world))
             deleted_row "2025-03-01T09:30:00.000Z"); reflexivity.
  - apply (proj2 (proj2 (softDelete_spec sample_host 1 sample_world)) sample_row);
      reflexivity.
Defined.

Lemma restore_spec_witness :
  restore sample_host 2 sample_world
    = (Thrown (NotFoundError "Media not found"), sample_world)
  ∧ restore sample_host 1 sample_world
    = (Thrown (ValidationError "Record is not deleted"), sample_world)
  ∧ restore sample_host 1 deleted_world
    = (Val (Some (with_timestamps "2025-03-01T10:00:00.000Z" None sample_row)),
       {| table := [with_timestamps "2025-03-01T10:00:00.000Z" None sample_row];
          files := files deleted_world; refused := ∅; ticks := 1; console := [] |}).
Proof.
  split; [|split].
  - apply (proj1 (restore_spec sample_host 2 sample_world)).
    intros r Hr. apply list_elem_of_singleton in Hr. subst r. simpl. lia.
  - apply (proj1 (proj2 (restore_spec sample_host 1 sample_world)) sample_row);
      reflexivity.
  - apply (proj2 (proj2 (restore_spec sample_host 1 deleted_world))
             deleted_row "2025-03-01T09:30:00.000Z"); reflexivity.
Defined.

Lemma softDelete_restore_roundtrip_witness :
  ∃ r1 w1 r2 w2,
    softDelete sample_host 1 sample_world = (Val (Some r1), w1)
    ∧ restore sample_host 1 w1 = (Val (Some r2), w2)
    ∧ List.find (has_id 1) (table w2) = Some r2
    ∧ deletedAt r2 = None
    ∧ id r2 = id sample_row
    ∧ originalFileName r2 = originalFileName sample_row
    ∧ storedFileName r2 = storedFileName sample_row
    ∧ mimeType r2 = mimeType sample_row
    ∧ width r2 = width sample_row
    ∧ height r2 = height sample_row
    ∧ fileSize r2 = fileSize sample_row
    ∧ createdAt r2 = createdAt sample_row
    ∧ table w2 =
        rows_changed 1 (with_timestamps (toISOString sample_host 2) None) (table sample_world).
Proof.
  apply (softDelete_restore_roundtrip sample_host 1 sample_world sample_row);
    reflexivity.
Defined.

(** ** The central error handler and the envelope *)


Lemma sendApiResponse_envelope (d : Data) (c : HttpStatusCode) (m : option string) :
  envelope (sendApiResponse d c m).
Proof. reflexivity. Qed.


Lemma returns_envelope_ret (d : Data) (c : HttpStatusCode) (m : option string) :
  returns_envelope (ret (sendApiResponse d c m)).
Proof. intros w r w' [= <- _]. apply sendApiResponse_envelope. Qed.

Lemma returns_envelope_throw (e : exn) : returns_envelope (throw e).
Proof. intros w r w' H. discriminate H. Qed.



Create HintDb envelope.
#[local] Hint Resolve returns_envelope_ret returns_envelope_throw : envelope.




(** ** Hard delete *)

Lemma find_some_filter_length {A} (f : A → bool) (l : list A) (x : A) :
  List.find f l = Some x → (0 < length (List.filter f l))%nat.
Proof.
  induction l as [|y l IH]; simpl; [discriminate|].
  destruct (f y); simpl; [lia | exact IH].
Qed.

Section HardDelete.
Context (host : Host).

Lemma remove_missing (i : Z) (w : World) :
  List.find (has_id i) (table w) = None →
  remove host i w = (Thrown (NotFoundError "Media not found"), w).
Proof.
  intros Hnone. unfold remove, bind.
  rewrite db_select_limit1_run, Hnone. reflexivity.
Qed.

Lemma remove_found (i : Z) (w : World) (r : Media) :
  List.find (has_id i) (table w) = Some r →
  remove host i w =
  (Val (length (List.filter (has_id i) (table w))),
   after_remove i (path_join host "./uploads" (storedFileName r)) w).
Proof.
  intros Hfind. unfold remove, bind.
  rewrite db_select_limit1_run, Hfind.
  unfold db_delete, get_table, put_table, bind, ret, try_catch, fs_unlink,
    after_remove.
  cbn [table files refused ticks console].
  set (p := path_join host "./uploads" (storedFileName r)).
  destruct (refused w !! p) as [errno|] eqn:Hr.
  - cbn [code_of]. destruct (decide (errno = "ENOENT")) as [->|Hne].
    + rewrite decide_True by reflexivity. reflexivity.
    + rewrite decide_False by congruence. reflexivity.
  - destruct (files w !! p) eqn:Hf.
    + reflexivity.
    + cbn [code_of]. rewrite decide_True by reflexivity.
      unfold ret. rewrite delete_id by exact Hf. reflexivity.
Qed.

(** C9. [remove i] fails with [NotFoundError] and leaves the state as it
    is when no row has the identifier [i]. Otherwise it succeeds: the
    rows with that identifier are deleted, and the removal of the stored
    file is attempted. The file goes when the system lets it go; a file
    that is not there is no failure; a refusal of the system is written
    to the console and nothing else happens. In each of these cases the
    row deletion stands and DELETE answers 200. *)
Theorem remove_spec (i : Z) (w : World) :
  ((∀ r, r ∈ table w → id r ≠ i) →
     remove host i w = (Thrown (NotFoundError "Media not found"), w))
  ∧ (∀ r, List.find (has_id i) (table w) = Some r →
     let p := path_join host "./uploads" (storedFileName r) in
     ∃ n w',
       remove host i w = (Val n, w')
       ∧ (0 < n)%nat
       ∧ (∀ x, x ∈ table w' ↔ x ∈ table w ∧ id x ≠ i)
       ∧ (refused w !! p = None →
            files w' = delete p (files w) ∧ console w' = console w)
       ∧ (refused w !! p = None → files w !! p = None →
            files w' = files w ∧ console w' = console w)
       ∧ (∀ errno, refused w !! p = Some errno → errno ≠ "ENOENT" →
            files w' = files w
            ∧ console w' = (console w ++ ["Failed to delete file: " +:+ p])%list)
       ∧ (∀ raw, parseInt raw = Some i →
            app host (DELETE_media raw) w
            = (sendApiResponse DNull OK (Some "Media deleted"), w'))).
Proof.
  split.
  - intros Hnone. apply remove_missing, find_has_id_none, Hnone.
  - intros r Hfind p.
    pose proof (find_some_filter_length _ _ _ Hfind) as Hn.
    eexists _, _. split; [apply remove_found, Hfind|].
    fold p. split; [exact Hn|].
    unfold after_remove; cbn [table files refused ticks console].
    split; [|split; [|split; [|split]]].
    + intros x. rewrite !list_elem_of_In, List.filter_In.
      unfold has_id. destruct (Z.eqb_spec (id x) i); simpl; intuition congruence.
    + intros ->. split; reflexivity.
    + intros -> Hf. rewrite delete_id by exact Hf. split; reflexivity.
    + intros errno -> Hne. rewrite decide_False by exact Hne. split; reflexivity.
    + intros raw Hraw. cbn [app]. unfold route, api_delete, param_id, bind.
      rewrite Hraw. unfold ret at 1.
      rewrite (remove_found _ _ _ Hfind).
      destruct (length (List.filter (has_id i) (table w))); [lia|].
      reflexivity.
Qed.

End HardDelete.

Lemma remove_spec_witness :
  remove sample_host 2 sample_world
    = (Thrown (NotFoundError "Media not found"), sample_world)
  ∧ ∃ n w',
      remove sample_host 1 refusing_world = (Val n, w')
      ∧ table w' = []
      ∧ files w' = files refusing_world
      ∧ console w' = ["Failed to delete file: uploads/1740823200000-7.png"]
      ∧ app sample_host (DELETE_media "1") refusing_world
        = (sendApiResponse DNull OK (Some "Media deleted"), w').
Proof.
  split.
  - apply (proj1 (remove_spec sample_host 2 sample_world)).
    intros r Hr. apply list_elem_of_singleton in Hr. subst r. simpl. lia.
  - destruct (proj2 (remove_spec sample_host 1 refusing_world) sample_row eq_refl)
      as (n & w' & Hrun & _ & Hrows & _ & _ & Hlog & Hapi).
    exists n, w'. split; [exact Hrun|].
    destruct (Hlog "EACCES" eq_refl ltac:(discriminate)) as [Hfiles Hconsole].
    split; [|split; [exact Hfiles | split; [exact Hconsole | apply Hapi; reflexivity]]].
    destruct (table w') as [|x t] eqn:E; [reflexivity|].
    exfalso. destruct (proj1 (Hrows x) ltac:(left)) as [Hx Hid].
    apply list_elem_of_singleton in Hx. subst x. apply Hid. reflexivity.
Defined.

(** ** Update, and create-or-update *)

Lemma validateCreate_outcome (model : gmap string value) (w : World) :
  validateCreate model w = (Val tt, w)
  ∨ ∃ m, validateCreate model w = (Thrown (Error m), w).
Proof.
  unfold validateCreate.
  repeat (match goal with
          | |- context [if negb ?b then _ else _] =>
              destruct b; cbn [negb]; [|right; eexists; reflexivity]
          end).
  left. reflexivity.
Qed.

Lemma db_insert_outcome (v : gmap string value) (w : World) :
  (∃ r w', db_insert v w = (Val [r], w'))
  ∨ ∃ m, db_insert v w = (Thrown (Error m), w).
Proof.
  unfold db_insert, bind, get_table.
  destruct (bind_columns v) as [c|]; [|right; eexists; reflexivity].
  destruct (new_row _ c) as [r|]; [|right; eexists; reflexivity].
  destruct (existsb _ _); [right; eexists; reflexivity|].
  left. eexists _, _. reflexivity.
Qed.

(** [create] answers with the inserted row or throws a plain [Error]. *)
Lemma create_outcome (model : gmap string value) (w : World) :
  (∃ r w', create model w = (Val (Some r), w'))
  ∨ ∃ m, create model w = (Thrown (Error m), w).
Proof.
  unfold create, bind.
  destruct (validateCreate_outcome model w) as [-> | [m ->]];
    [|right; eexists; reflexivity].
  destruct (db_insert_outcome model w) as [(r & w' & ->) | [m ->]];
    [left; eexists _, _; reflexivity | right; eexists; reflexivity].
Qed.

(** C10. When the identifier is the number 0 the test [if (model.id)] is
    false, so [createOrUpdate] runs [create]; PUT /media/0 therefore
    attempts an insertion, and its answer is 200 or 500, never the 404 of
    a [NotFoundError]. *)
Theorem createOrUpdate_id_zero (host : Host) :
  (∀ model : gmap string value,
     model !! "id" = Some (VNum 0) → createOrUpdate model = create model)
  ∧ (∀ (req_body : gmap string value) (w : World),
       req_body !! "id" = None →
       app host (PUT_media "0" req_body) w
       = route (let! result := create (req_body ∪ {[ "id" := VNum 0 ]}) in
                match result with
                | None => throw (NotFoundError "Media not found")
                | Some _ => ret (sendApiResponse (DMessage "Media updated") OK None)
                end) w
       ∧ (status (app host (PUT_media "0" req_body) w).1 = 200
          ∨ status (app host (PUT_media "0" req_body) w).1 = 500)).
Proof.
  assert (Hdispatch : ∀ model : gmap string value,
            model !! "id" = Some (VNum 0) → createOrUpdate model = create model).
  { intros model Hid. unfold createOrUpdate. rewrite Hid. reflexivity. }
  split; [exact Hdispatch|].
  intros req_body w Hno.
  assert (Hid : (req_body ∪ {[ "id" := VNum 0 ]}) !! "id" = Some (VNum 0)).
  { rewrite lookup_union_r by exact Hno. apply lookup_singleton_eq. }
  assert (Happ : app host (PUT_media "0" req_body) w
                 = route (let! result := create (req_body ∪ {[ "id" := VNum 0 ]}) in
                          match result with
                          | None => throw (NotFoundError "Media not found")
                          | Some _ => ret (sendApiResponse (DMessage "Media updated") OK None)
                          end) w).
  { cbn [app]. unfold route, api_put. rewrite <- (Hdispatch _ Hid). reflexivity. }
  split; [exact Happ|].
  rewrite Happ. unfold route, bind.
  destruct (create_outcome (req_body ∪ {[ "id" := VNum 0 ]}) w)
    as [(r & w' & ->) | [m ->]]; [left | right]; reflexivity.
Qed.

Lemma createOrUpdate_id_zero_witness :
  createOrUpdate {[ "id" := VNum 0 ]} = create {[ "id" := VNum 0 ]}
  ∧ (status (app sample_host (PUT_media "0" ∅) sample_world).1 = 200
     ∨ status (app sample_host (PUT_media "0" ∅) sample_world).1 = 500).
Proof.
  split.
  - apply (proj1 (createOrUpdate_id_zero sample_host)). reflexivity.
  - apply (proj2 (createOrUpdate_id_zero sample_host) ∅ sample_world). reflexivity.
Defined.

(** *** What [update] does to the table *)

Lemma validateUpdate_outcome (model : gmap string value) (w : World) :
  validateUpdate model w = (Val tt, w)
  ∨ ∃ m, validateUpdate model w = (Thrown (Error m), w).
Proof.
  unfold validateUpdate.
  destruct (defined_not_number (model !! "width")); [right; eexists; reflexivity|].
  destruct (defined_not_number (model !! "height")); [right; eexists; reflexivity|].
  left. reflexivity.
Qed.

(** A width that is present and is not a number stops [update] before the
    table is touched, with a plain [Error]. *)
Lemma update_width_not_number (model : gmap string value) (v : value) (w : World) :
  model !! "width" = Some v → typeof v ≠ "number" →
  update model w = (Thrown (Error "Width must be a number"), w).
Proof.
  intros Hw Hty. unfold update, bind, validateUpdate. rewrite Hw.
  cbn [defined_not_number].
  destruct (String.eqb_spec (typeof v) "number") as [E|_]; [contradiction|].
  reflexivity.
Qed.

Lemma bind_columns_delete_id (model : gmap string value) (c : Columns) :
  bind_columns (delete "id" model) = Some c → set_id c = None.
Proof.
  unfold bind_columns. rewrite lookup_delete_eq. cbn [bind_integer].
  intros H. simplify_option_eq. reflexivity.
Qed.

Lemma bind_columns_updatedAt (o : gmap string value) (c : Columns) :
  o !! "updatedAt" = None → bind_columns o = Some c → set_updatedAt c = None.
Proof.
  intros Hno. unfold bind_columns. rewrite Hno. cbn [bind_text].
  intros H. simplify_option_eq. reflexivity.
Qed.

Lemma update_table (model : gmap string value) (w w' : World) (o : outcome (option Media)) :
  update model w = (o, w') →
  w' = w
  ∨ ∃ c i, bind_columns (delete "id" model) = Some c
           ∧ table w' = rows_changed i (write_columns c) (table w).
Proof.
  unfold update, bind.
  destruct (validateUpdate_outcome model w) as [-> | [m ->]];
    [|intros [= _ <-]; left; reflexivity].
  unfold db_update_values.
  destruct (bind_columns (delete "id" model)) as [c|] eqn:Hc;
    [|intros [= _ <-]; left; reflexivity].
  destruct (model !! "id") as [[| |i| | |]|]; try (intros [= _ <-]; left; reflexivity).
  unfold db_update, get_table, put_table, bind, ret. cbn [table].
  intros H. right. exists c, i. split; [reflexivity|].
  destruct (List.map (write_columns c) (List.filter (has_id i) (table w)));
    injection H as _ <-; reflexivity.
Qed.

(** The identifier is taken out of the update set: no row changes its
    identifier. *)
Lemma update_preserves_ids (model : gmap string value) (w w' : World)
      (o : outcome (option Media)) :
  update model w = (o, w') → List.map id (table w') = List.map id (table w).
Proof.
  intros H. apply update_table in H as [-> | (c & i & Hc & ->)]; [reflexivity|].
  apply bind_columns_delete_id in Hc.
  unfold rows_changed. rewrite List.map_map. apply List.map_ext. intros r.
  destruct (has_id i r); [|reflexivity].
  unfold write_columns. cbn [id]. rewrite Hc. reflexivity.
Qed.

(** [update] writes the columns it is given and nothing else: unless the
    caller supplies an [updatedAt], that column is not written. *)
Lemma update_preserves_updatedAt (model : gmap string value) (w w' : World)
      (o : outcome (option Media)) :
  model !! "updatedAt" = None →
  update model w = (o, w') →
  List.map updatedAt (table w') = List.map updatedAt (table w).
Proof.
  intros Hno H. apply update_table in H as [-> | (c & i & Hc & ->)]; [reflexivity|].
  apply bind_columns_updatedAt in Hc; [|rewrite lookup_delete_ne by discriminate; exact Hno].
  unfold rows_changed. rewrite List.map_map. apply List.map_ext. intros r.
  destruct (has_id i r); [|reflexivity].
  unfold write_columns. cbn [updatedAt]. rewrite Hc. reflexivity.
Qed.

(** No row with the given identifier: [NotFoundError], table untouched. *)
Lemma update_missing (model : gmap string value) (i : Z) (c : Columns) (w : World) :
  validateUpdate model w = (Val tt, w) →
  model !! "id" = Some (VNum i) →
  bind_columns (delete "id" model) = Some c →
  List.find (has_id i) (table w) = None →
  ∃ w', update model w = (Thrown (NotFoundError "No record found with the provided id"), w')
        ∧ table w' = table w.
Proof.
  intros Hv Hid Hc Hnone. unfold update, bind. rewrite Hv.
  unfold db_update_values. rewrite Hc, Hid.
  unfold db_update, get_table, put_table, bind, ret. cbn [table].
  rewrite (find_none_filter _ _ Hnone). cbn [List.map].
  eexists. split; [reflexivity|]. cbn [table].
  clear Hv Hc. induction (table w) as [|x t IH]; [reflexivity|].
  simpl in *. destruct (has_id i x); [discriminate|]. f_equal. apply IH, Hnone.
Qed.

(** C4, at PUT /media/1 with the body [{ "width": "wide" }]: the width is
    present and is a string, the update is refused before the table is
    read, but with a plain [Error], which the central handler answers with
    500 and not with the 400 of a [ValidationError]. *)
Theorem put_width_string_answers_500 (host : Host) (w : World) :
  app host (PUT_media "1" {[ "width" := VStr "wide" ]}) w
  = (sendApiResponse DNull InternalServerError (Some "Width must be a number"), w)
  ∧ status (app host (PUT_media "1" {[ "width" := VStr "wide" ]}) w).1 = 500.
Proof.
  assert (H : app host (PUT_media "1" {[ "width" := VStr "wide" ]}) w
              = (sendApiResponse DNull InternalServerError
                   (Some "Width must be a number"), w)).
  { cbn [app]. unfold route, api_put, bind.
    change (param_id "1" w) with (Val 1, w).
    unfold createOrUpdate.
    replace (prop_truthy _) with true by (vm_compute; reflexivity).
    rewrite (update_width_not_number _ (VStr "wide")).
    - reflexivity.
    - vm_compute. reflexivity.
    - discriminate. }
  split; [exact H | rewrite H; reflexivity].
Qed.

(** C5, at PUT /media/1 with the body [{ "originalFileName": "b.png" }] on
    a table holding the record 1: the answer is 200, the name is written,
    the identifier is kept, and [updatedAt] is the one the record had
    before the call; the clock is not even read. *)
Theorem put_name_keeps_updatedAt :
  app sample_host (PUT_media "1" {[ "originalFileName" := VStr "b.png" ]}) sample_world
  = (sendApiResponse (DMessage "Media updated") OK None,
     {| table := [ {| id := 1;
                      originalFileName := "b.png";
                      storedFileName := storedFileName sample_row;
                      mimeType := mimeType sample_row;
                      width := width sample_row;
                      height := height sample_row;
                      fileSize := fileSize sample_row;
                      createdAt := createdAt sample_row;
                      updatedAt := updatedAt sample_row;
                      deletedAt := None |} ];
        files := files sample_world;
        refused := refused sample_world;
        ticks := ticks sample_world;
        console := console sample_world |}).
Proof. vm_compute. reflexivity. Qed.

(** *** The upload filter *)

(** A part whose declared type does not begin with image/ is refused by
    the filter before a name is chosen or a byte is written: the world,
    and so the upload directory, is as before. The refusal is a plain
    [Error]. *)
Lemma upload_single_refused (host : Host) (part : Part) (w : World) :
  String.prefix "image/" (part_mimetype part) = false →
  upload_single host (Some part) w
  = (Thrown (Error "Only image files are allowed"), w).
Proof.
  intros Hmime. unfold upload_single, fileFilter. rewrite Hmime. reflexivity.
Qed.

Lemma post_refused (host : Host) (part : Part) (w : World) :
  String.prefix "image/" (part_mimetype part) = false →
  app host (POST_media (Some part)) w
  = (sendApiResponse DNull InternalServerError (Some "Only image files are allowed"), w).
Proof.
  intros Hmime. cbn [app]. unfold route, api_post, bind.
  rewrite upload_single_refused by exact Hmime. reflexivity.
Qed.

(** C6, at the upload of notes.txt declared as text/plain: nothing is
    written (the world is unchanged), but the refusal is a plain [Error],
    answered with 500 and not with the 400 of a [ValidationError]. *)
Theorem post_text_plain_answers_500 (host : Host) (w : World) :
  app host (POST_media (Some {| part_originalname := "notes.txt";
                                part_mimetype := "text/plain";
                                part_content := "hello" |})) w
  = (sendApiResponse DNull InternalServerError (Some "Only image files are allowed"), w)
  ∧ status (app host (POST_media (Some {| part_originalname := "notes.txt";
                                          part_mimetype := "text/plain";
                                          part_content := "hello" |})) w).1 = 500.
Proof.
  split; [|rewrite post_refused]; try apply post_refused; reflexivity.
Qed.

(** * Further properties of the routes and of the service *)

(** ** Identifiers in the path *)

(** X1. A path identifier that [parseInt] cannot read makes each of the
    four routes that take one answer 400 "Invalid ID", and the state is
    not touched. *)
Theorem invalid_id_answers_400 (host : Host) (raw : string)
        (req_body : gmap string value) (w : World) :
  parseInt raw = None →
  app host (PUT_media raw req_body) w
    = (sendApiResponse DNull BadRequest (Some "Invalid ID"), w)
  ∧ app host (DELETE_media raw) w
    = (sendApiResponse DNull BadRequest (Some "Invalid ID"), w)
  ∧ app host (PATCH_soft_delete raw) w
    = (sendApiResponse DNull BadRequest (Some "Invalid ID"), w)
  ∧ app host (PATCH_restore raw) w
    = (sendApiResponse DNull BadRequest (Some "Invalid ID"), w).
Proof.
  intros Hnan. cbn [app].
  unfold route, api_put, api_delete, api_soft_delete, api_restore, bind, param_id.
  rewrite Hnan. repeat split; reflexivity.
Qed.

Lemma invalid_id_answers_400_witness :
  app sample_host (PATCH_restore "abc") sample_world
  = (sendApiResponse DNull BadRequest (Some "Invalid ID"), sample_world).
Proof.
  apply (invalid_id_answers_400 sample_host "abc" ∅ sample_world). reflexivity.
Defined.

(** ** The soft-delete and restore routes *)

Lemma param_id_run (raw : string) (i : Z) (w : World) :
  parseInt raw = Some i → param_id raw w = (Val i, w).
Proof. intros H. unfold param_id. rewrite H. reflexivity. Qed.

(** X2. PATCH /:id/soft-delete answers 404 when no row has the
    identifier, 400 when the record is already deleted, and 200 with the
    message "Media soft-deleted" and a null payload otherwise. *)
Theorem soft_delete_route_answer (host : Host) (raw : string) (i : Z) (w : World) :
  parseInt raw = Some i →
  (app host (PATCH_soft_delete raw) w).1 =
  match List.find (has_id i) (table w) with
  | None => sendApiResponse DNull NotFound (Some "Media not found")
  | Some r =>
      match deletedAt r with
      | Some _ => sendApiResponse DNull BadRequest (Some "Record is already deleted")
      | None => sendApiResponse DNull OK (Some "Media soft-deleted")
      end
  end.
Proof.
  intros Hraw. cbn [app]. unfold route, api_soft_delete, bind.
  rewrite (param_id_run _ _ _ Hraw).
  destruct (List.find (has_id i) (table w)) as [r|] eqn:Hfind.
  - destruct (deletedAt r) as [d|] eqn:Hdel.
    + rewrite (softDelete_deleted host i w r d Hfind Hdel). reflexivity.
    + rewrite (softDelete_active host i w r Hfind Hdel). reflexivity.
  - rewrite (softDelete_missing host i w Hfind). reflexivity.
Qed.

Lemma soft_delete_route_answer_witness :
  (app sample_host (PATCH_soft_delete "1") sample_world).1
  = sendApiResponse DNull OK (Some "Media soft-deleted").
Proof.
  apply (soft_delete_route_answer sample_host "1" 1 sample_world). reflexivity.
Defined.

(** X3. PATCH /:id/restore answers 404 when no row has the identifier,
    400 when the record is not deleted, and 200 with the message
    "Media restored" and a null payload otherwise. *)
Theorem restore_route_answer (host : Host) (raw : string) (i : Z) (w : World) :
  parseInt raw = Some i →
  (app host (PATCH_restore raw) w).1 =
  match List.find (has_id i) (table w) with
  | None => sendApiResponse DNull NotFound (Some "Media not found")
  | Some r =>
      match deletedAt r with
      | None => sendApiResponse DNull BadRequest (Some "Record is not deleted")
      | Some _ => sendApiResponse DNull OK (Some "Media restored")
      end
  end.
Proof.
  intros Hraw. cbn [app]. unfold route, api_restore, bind.
  rewrite (param_id_run _ _ _ Hraw).
  destruct (List.find (has_id i) (table w)) as [r|] eqn:Hfind.
  - destruct (deletedAt r) as [d|] eqn:Hdel.
    + rewrite (restore_deleted host i w r d Hfind Hdel). reflexivity.
    + rewrite (restore_active host i w r Hfind Hdel). reflexivity.
  - rewrite (restore_missing host i w Hfind). reflexivity.
Qed.

Lemma restore_route_answer_witness :
  (app sample_host (PATCH_restore "1") sample_world).1
  = sendApiResponse DNull BadRequest (Some "Record is not deleted").
Proof.
  apply (restore_route_answer sample_host "1" 1 sample_world). reflexivity.
Defined.

(** ** Repeating a transition *)

Lemma softDelete_returns (host : Host) (i : Z) (w w1 : World) (o : option Media) :
  softDelete host i w = (Val o, w1) →
  ∃ r, List.find (has_id i) (table w) = Some r
       ∧ deletedAt r = None
       ∧ table w1 = rows_changed i
                      (with_timestamps (toISOString host (S (ticks w)))
                                       (Some (toISOString host (ticks w))))
                      (table w).
Proof.
  intros H.
  destruct (List.find (has_id i) (table w)) as [r|] eqn:Hfind.
  - destruct (deletedAt r) as [d|] eqn:Hdel.
    + rewrite (softDelete_deleted host i w r d Hfind Hdel) in H. discriminate H.
    + rewrite (softDelete_active host i w r Hfind Hdel) in H.
      injection H as _ <-. exists r.
      split; [reflexivity|]. split; [exact Hdel | reflexivity].
  - rewrite (softDelete_missing host i w Hfind) in H. discriminate H.
Qed.

Lemma restore_returns (host : Host) (i : Z) (w w1 : World) (o : option Media) :
  restore host i w = (Val o, w1) →
  ∃ r d, List.find (has_id i) (table w) = Some r
         ∧ deletedAt r = Some d
         ∧ table w1 = rows_changed i (with_timestamps (toISOString host (ticks w)) None)
                        (table w).
Proof.
  intros H.
  destruct (List.find (has_id i) (table w)) as [r|] eqn:Hfind.
  - destruct (deletedAt r) as [d|] eqn:Hdel.
    + rewrite (restore_deleted host i w r d Hfind Hdel) in H.
      injection H as _ <-. exists r, d.
      split; [reflexivity|]. split; [exact Hdel | reflexivity].
    + rewrite (restore_active host i w r Hfind Hdel) in H. discriminate H.
  - rewrite (restore_missing host i w Hfind) in H. discriminate H.
Qed.

(** X4. A soft delete that succeeded cannot be repeated: the next
    [softDelete] of the same identifier fails with [ValidationError] and
    changes nothing, while [restore] is now allowed. *)
Theorem softDelete_twice (host : Host) (i : Z) (w w1 : World) (o : option Media) :
  softDelete host i w = (Val o, w1) →
  softDelete host i w1
    = (Thrown (ValidationError "Record is already deleted"), w1)
  ∧ ∃ o2 w2, restore host i w1 = (Val o2, w2).
Proof.
  intros H. apply softDelete_returns in H as (r & Hfind & Hdel & Ht).
  assert (Hfind1 : List.find (has_id i) (table w1)
                   = Some (with_timestamps (toISOString host (S (ticks w)))
                             (Some (toISOString host (ticks w))) r)).
  { rewrite Ht. apply find_rows_changed; [reflexivity | exact Hfind]. }
  split.
  - eapply softDelete_deleted; [exact Hfind1 | reflexivity].
  - eexists _, _. eapply restore_deleted; [exact Hfind1 | reflexivity].
Qed.

Lemma softDelete_twice_witness :
  ∃ o w1,
    softDelete sample_host 1 sample_world = (Val o, w1)
    ∧ softDelete sample_host 1 w1
      = (Thrown (ValidationError "Record is already deleted"), w1).
Proof.
  eexists _, _. split; [reflexivity|].
  eapply (proj1 (softDelete_twice sample_host 1 sample_world _ _ eq_refl)).
Defined.

(** X5. A restore that succeeded cannot be repeated: the next [restore]
    of the same identifier fails with [ValidationError] and changes
    nothing, while [softDelete] is allowed again. *)
Theorem restore_twice (host : Host) (i : Z) (w w1 : World) (o : option Media) :
  restore host i w = (Val o, w1) →
  restore host i w1 = (Thrown (ValidationError "Record is not deleted"), w1)
  ∧ ∃ o2 w2, softDelete host i w1 = (Val o2, w2).
Proof.
  intros H. apply restore_returns in H as (r & d & Hfind & Hdel & Ht).
  assert (Hfind1 : List.find (has_id i) (table w1)
                   = Some (with_timestamps (toISOString host (ticks w)) None r)).
  { rewrite Ht. apply find_rows_changed; [reflexivity | exact Hfind]. }
  split.
  - eapply restore_active; [exact Hfind1 | reflexivity].
  - eexists _, _. eapply softDelete_active; [exact Hfind1 | reflexivity].
Qed.

Lemma restore_twice_witness :
  ∃ o w1,
    restore sample_host 1 deleted_world = (Val o, w1)
    ∧ restore sample_host 1 w1
      = (Thrown (ValidationError "Record is not deleted"), w1).
Proof.
  eexists _, _. split; [reflexivity|].
  eapply (proj1 (restore_twice sample_host 1 deleted_world _ _ eq_refl)).
Defined.

(** ** Hard delete, again *)

Lemma find_filter_negb {A} (f : A → bool) (l : list A) :
  List.find f (List.filter (λ x, negb (f x)) l) = None.
Proof.
  induction l as [|x l IH]; simpl; [reflexivity|].
  destruct (f x) eqn:E; simpl; [exact IH | rewrite E; exact IH].
Qed.

Lemma remove_returns (host : Host) (i : Z) (w w1 : World) (n : nat) :
  remove host i w = (Val n, w1) →
  ∃ r, List.find (has_id i) (table w) = Some r
       ∧ n = length (List.filter (has_id i) (table w))
       ∧ w1 = after_remove i (path_join host "./uploads" (storedFileName r)) w.
Proof.
  intros H.
  destruct (List.find (has_id i) (table w)) as [r|] eqn:Hfind.
  - rewrite (remove_found host i w r Hfind) in H.
    injection H as <- <-. exists r.
    split; [reflexivity|]. split; reflexivity.
  - rewrite (remove_missing host i w Hfind) in H. discriminate H.
Qed.

(** X6. After a hard delete that succeeded the record is gone: [getById]
    finds nothing, a second [remove] fails with [NotFoundError] and
    changes nothing, and a second DELETE answers 404. *)
Theorem remove_twice (host : Host) (i : Z) (w w1 : World) (n : nat) :
  remove host i w = (Val n, w1) →
  getById i w1 = (Val [], w1)
  ∧ remove host i w1 = (Thrown (NotFoundError "Media not found"), w1)
  ∧ (∀ raw, parseInt raw = Some i →
       app host (DELETE_media raw) w1
       = (sendApiResponse DNull NotFound (Some "Media not found"), w1)).
Proof.
  intros H. apply remove_returns in H as (r & Hfind & _ & ->).
  assert (Hgone : List.find (has_id i)
                    (table (after_remove i
                              (path_join host "./uploads" (storedFileName r)) w))
                  = None).
  { unfold after_remove; cbn [table]. apply find_filter_negb. }
  split; [|split].
  - unfold getById, db_select, get_table, bind, ret.
    rewrite (find_none_filter _ _ Hgone). reflexivity.
  - apply remove_missing, Hgone.
  - intros raw Hraw. cbn [app]. unfold route, api_delete, bind.
    rewrite (param_id_run _ _ _ Hraw), (remove_missing _ _ _ Hgone). reflexivity.
Qed.

Lemma remove_twice_witness :
  ∃ n w1,
    remove sample_host 1 sample_world = (Val n, w1)
    ∧ getById 1 w1 = (Val [], w1)
    ∧ app sample_host (DELETE_media "1") w1
      = (sendApiResponse DNull NotFound (Some "Media not found"), w1).
Proof.
  destruct (remove_twice sample_host 1 sample_world
              (after_remove 1 "uploads/1740823200000-7.png" sample_world) 1%nat)
    as (Hget & _ & Hdel).
  - apply (remove_found sample_host 1 sample_world sample_row). reflexivity.
  - eexists _, _. split.
    + apply (remove_found sample_host 1 sample_world sample_row). reflexivity.
    + split; [exact Hget | apply Hdel; reflexivity].
Defined.

(** ** What soft delete and restore leave alone *)

Lemma kept_columns_rows_changed (i : Z) (u : string) (d : option string) (t : list Media) :
  List.map kept_columns (rows_changed i (with_timestamps u d) t)
  = List.map kept_columns t.
Proof.
  unfold rows_changed. rewrite List.map_map. apply List.map_ext.
  intros r. destruct (has_id i r); reflexivity.
Qed.

(** X7. Whatever their outcome, [softDelete] and [restore] touch neither
    the disk nor the console, add or drop no row, and leave every column
    other than [updatedAt] and [deletedAt] of every row as it was: a soft
    delete keeps the stored file. *)
Theorem soft_transitions_frame (host : Host) (i : Z) (w : World) :
  same_disk w (softDelete host i w).2
  ∧ List.map kept_columns (table (softDelete host i w).2)
    = List.map kept_columns (table w)
  ∧ same_disk w (restore host i w).2
  ∧ List.map kept_columns (table (restore host i w).2)
    = List.map kept_columns (table w).
Proof.
  unfold same_disk.
  destruct (List.find (has_id i) (table w)) as [r|] eqn:Hfind.
  - destruct (deletedAt r) as [d|] eqn:Hdel.
    + rewrite (softDelete_deleted host i w r d Hfind Hdel),
        (restore_deleted host i w r d Hfind Hdel).
      cbn [snd table files refused console].
      rewrite kept_columns_rows_changed. repeat split.
    + rewrite (softDelete_active host i w r Hfind Hdel),
        (restore_active host i w r Hfind Hdel).
      cbn [snd table files refused console].
      rewrite kept_columns_rows_changed. repeat split.
  - rewrite (softDelete_missing host i w Hfind), (restore_missing host i w Hfind).
    repeat split.
Qed.

(** ** What hard delete leaves alone *)

(** X8. [remove] takes at most one file from the disk, the one stored
    for the record it found: every other path holds what it held, and
    when no record is found the disk is as it was. *)
Theorem remove_spares_other_files (host : Host) (i : Z) (w : World) (q : string) :
  (∀ r, List.find (has_id i) (table w) = Some r →
        q ≠ path_join host "./uploads" (storedFileName r)) →
  files (remove host i w).2 !! q = files w !! q.
Proof.
  intros Hq.
  destruct (List.find (has_id i) (table w)) as [r|] eqn:Hfind.
  - rewrite (remove_found host i w r Hfind). unfold after_remove. cbn [snd files].
    destruct (refused w !! _); [reflexivity|].
    apply lookup_delete_ne. intros E. exact (Hq r eq_refl (eq_sym E)).
  - rewrite (remove_missing host i w Hfind). reflexivity.
Qed.

Lemma remove_spares_other_files_witness :
  files (remove sample_host 1 sample_world).2 !! "uploads/other.png"
  = files sample_world !! "uploads/other.png".
Proof.
  apply (remove_spares_other_files sample_host 1 sample_world "uploads/other.png").
  intros r [= <-]. simpl. discriminate.
Defined.

Lemma filter_key (i : Z) (t : list Media) (r : Media) :
  NoDup (List.map id t) →
  List.find (has_id i) t = Some r →
  List.filter (has_id i) t = [r].
Proof.
  induction t as [|x t IH]; simpl; [discriminate|].
  intros Hnd Hfind. apply NoDup_cons in Hnd as [Hx Hnd].
  destruct (has_id i x) eqn:E.
  - injection Hfind as ->. f_equal.
    apply find_none_filter, find_has_id_none. intros y Hy Hid.
    apply Hx. unfold has_id in E. apply Z.eqb_eq in E.
    apply list_elem_of_In, List.in_map_iff. exists y.
    split; [congruence | apply list_elem_of_In; exact Hy].
  - apply IH; assumption.
Qed.

Lemma filter_split_length {A} (f : A → bool) (l : list A) :
  (length (List.filter f l) + length (List.filter (λ x, negb (f x)) l))%nat = length l.
Proof.
  induction l as [|x l IH]; simpl; [reflexivity|].
  destruct (f x); simpl; lia.
Qed.

(** X9. When identifiers are pairwise distinct, as the primary key makes
    them, a hard delete that finds its record deletes exactly that row:
    [rowsAffected] is 1, the table is one row shorter, and the record is
    the only row missing. *)
Theorem remove_one_row (host : Host) (i : Z) (w : World) (r : Media) :
  NoDup (List.map id (table w)) →
  List.find (has_id i) (table w) = Some r →
  (remove host i w).1 = Val 1%nat
  ∧ S (length (table (remove host i w).2)) = length (table w)
  ∧ (∀ x, x ∈ table w → x ≠ r → x ∈ table (remove host i w).2).
Proof.
  intros Hnd Hfind.
  pose proof (filter_key i _ r Hnd Hfind) as Hone.
  rewrite (remove_found host i w r Hfind). cbn [fst snd].
  unfold after_remove; cbn [table].
  split; [rewrite Hone; reflexivity|]. split.
  - pose proof (filter_split_length (has_id i) (table w)) as Hlen.
    rewrite Hone in Hlen. cbn [length] in Hlen. lia.
  - intros x Hx Hne. apply list_elem_of_In, List.filter_In.
    split; [apply list_elem_of_In; exact Hx|].
    destruct (has_id i x) eqn:E; [|reflexivity].
    exfalso. apply Hne.
    assert (Hin : In x (List.filter (has_id i) (table w))).
    { apply List.filter_In. split; [apply list_elem_of_In; exact Hx | exact E]. }
    rewrite Hone in Hin. destruct Hin as [->|[]]. reflexivity.
Qed.

Lemma remove_one_row_witness :
  (remove sample_host 1 sample_world).1 = Val 1%nat
  ∧ S (length (table (remove sample_host 1 sample_world).2))
    = length (table sample_world).
Proof.
  destruct (remove_one_row sample_host 1 sample_world sample_row) as (H1 & H2 & _).
  - simpl. apply NoDup_cons. split; [apply not_elem_of_nil | apply NoDup_nil_2].
  - reflexivity.
  - split; [exact H1 | exact H2].
Defined.

(** ** The upload *)

(** X10. An upload that the middleware accepts was declared as an image
    and is on the disk: reading the descriptor's [path] gives back the
    bytes that were sent, [size] is their number, the client's name and
    type are carried over, no other path of the disk changes and the
    table is not touched. *)
Theorem upload_single_stores (host : Host) (part : Part) (file : UploadedFile)
        (w w' : World) :
  upload_single host (Some part) w = (Val (Some file), w') →
  String.prefix "image/" (part_mimetype part) = true
  ∧ fs_readFile (path file) w' = (Val (part_content part), w')
  ∧ size file = Z.of_nat (String.length (part_content part))
  ∧ originalname file = part_originalname part
  ∧ mimetype file = part_mimetype part
  ∧ filename file = stored_name host part w
  ∧ path file = path_join host "./uploads" (filename file)
  ∧ (∀ q, q ≠ path file → files w' !! q = files w !! q)
  ∧ table w' = table w.
Proof.
  unfold upload_single, fileFilter.
  destruct (String.prefix "image/" (part_mimetype part)); [|discriminate].
  unfold bind, storage_filename, fs_writeFile, put_files, ret.
  cbn [table files refused ticks console].
  intros [= <- <-]. cbn [path size originalname mimetype filename files table].
  split; [reflexivity|]. split.
  { unfold fs_readFile. cbn [files]. rewrite lookup_insert_eq. reflexivity. }
  do 5 (split; [reflexivity|]). split; [|reflexivity].
  intros q Hq. apply lookup_insert_ne. congruence.
Qed.

Lemma upload_single_stores_witness :
  ∃ file w',
    upload_single sample_host (Some sample_part) sample_world = (Val (Some file), w')
    ∧ fs_readFile (path file) w' = (Val (part_content sample_part), w')
    ∧ size file = 9.
Proof.
  eexists _, _. split; [vm_compute; reflexivity|].
  match goal with
  | |- fs_readFile (path ?f) ?w' = _ ∧ _ =>
      destruct (upload_single_stores sample_host sample_part f sample_world w')
        as (_ & Hread & Hsize & _); [vm_compute; reflexivity|]
  end.
  split; [exact Hread | exact Hsize].
Defined.

(** *** Creating the record of an upload *)

Lemma fold_max_le (t : list Media) (r : Media) :
  r ∈ t → (id r ≤ fold_right Z.max 0 (List.map id t))%Z.
Proof.
  induction t as [|x t IH]; intros Hr.
  - apply not_elem_of_nil in Hr. contradiction.
  - apply elem_of_cons in Hr as [-> | Hr]; simpl; [lia|].
    specialize (IH Hr). lia.
Qed.

(** The identifier given to a new row is the identifier of no row. *)
Lemma fresh_id_fresh (t : list Media) (r : Media) :
  r ∈ t → id r ≠ fresh_id t.
Proof.
  intros Hr. pose proof (fold_max_le t r Hr). unfold fresh_id. lia.
Qed.

Lemma existsb_fresh_id (t : list Media) :
  existsb (has_id (fresh_id t)) t = false.
Proof.
  destruct (existsb (has_id (fresh_id t)) t) eqn:E; [|reflexivity].
  apply List.existsb_exists in E as (r & Hr & Hid).
  apply Z.eqb_eq in Hid. apply list_elem_of_In in Hr.
  exfalso. exact (fresh_id_fresh t r Hr Hid).
Qed.

Lemma truthy_text (s : string) : s ≠ "" → prop_truthy (Some (VStr s)) = true.
Proof.
  intros Hs. cbn [prop_truthy truthy].
  destruct (String.eqb_spec s ""); [contradiction | reflexivity].
Qed.

Lemma truthy_number (n : Z) : n ≠ 0 → prop_truthy (Some (VNum n)) = true.
Proof.
  intros Hn. cbn [prop_truthy truthy].
  destruct (Z.eqb_spec n 0); [contradiction | reflexivity].
Qed.

Lemma media_input_columns (name stored mime : string) (wd ht bytes : Z)
      (created updated : string) :
  bind_columns (media_input name stored mime wd ht bytes created updated)
  = Some {| set_id := None;
            set_originalFileName := Some name;
            set_storedFileName := Some stored;
            set_mimeType := Some mime;
            set_width := Some wd;
            set_height := Some ht;
            set_fileSize := Some bytes;
            set_createdAt := Some created;
            set_updatedAt := Some updated;
            set_deletedAt := Some None |}.
Proof. vm_compute. reflexivity. Qed.

Lemma validateCreate_media_input (name stored mime : string) (wd ht bytes : Z)
      (created updated : string) (w : World) :
  name ≠ "" → stored ≠ "" → mime ≠ "" → wd ≠ 0 → ht ≠ 0 → bytes ≠ 0 →
  validateCreate (media_input name stored mime wd ht bytes created updated) w
  = (Val tt, w).
Proof.
  intros Hn Hs Hm Hw Hh Hb. unfold validateCreate.
  change (media_input name stored mime wd ht bytes created updated !! "originalFileName")
    with (Some (VStr name)).
  change (media_input name stored mime wd ht bytes created updated !! "storedFileName")
    with (Some (VStr stored)).
  change (media_input name stored mime wd ht bytes created updated !! "mimeType")
    with (Some (VStr mime)).
  change (media_input name stored mime wd ht bytes created updated !! "width")
    with (Some (VNum wd)).
  change (media_input name stored mime wd ht bytes created updated !! "height")
    with (Some (VNum ht)).
  change (media_input name stored mime wd ht bytes created updated !! "fileSize")
    with (Some (VNum bytes)).
  rewrite !truthy_text, !truthy_number by assumption. reflexivity.
Qed.

(** [create] on the object of an upload: one row, at the end, under an
    identifier that no row has. *)
Lemma create_media_input (name stored mime : string) (wd ht bytes : Z)
      (created updated : string) (w : World) :
  name ≠ "" → stored ≠ "" → mime ≠ "" → wd ≠ 0 → ht ≠ 0 → bytes ≠ 0 →
  create (media_input name stored mime wd ht bytes created updated) w
  = (Val (Some {| id := fresh_id (table w); originalFileName := name;
                  storedFileName := stored; mimeType := mime;
                  width := wd; height := ht; fileSize := bytes;
                  createdAt := created; updatedAt := updated;
                  deletedAt := None |}),
     {| table := (table w ++ [{| id := fresh_id (table w); originalFileName := name;
                                 storedFileName := stored; mimeType := mime;
                                 width := wd; height := ht; fileSize := bytes;
                                 createdAt := created; updatedAt := updated;
                                 deletedAt := None |}])%list;
        files := files w; refused := refused w;
        ticks := ticks w; console := console w |}).
Proof.
  intros Hn Hs Hm Hw Hh Hb. unfold create, bind.
  rewrite validateCreate_media_input by assumption.
  unfold db_insert, bind, get_table. rewrite media_input_columns.
  cbn [set_id default new_row set_originalFileName set_storedFileName
       set_mimeType set_width set_height set_fileSize set_createdAt
       set_updatedAt set_deletedAt mbind option_bind].
  rewrite existsb_fresh_id. reflexivity.
Qed.

Lemma upload_single_run (host : Host) (part : Part) (w : World) :
  String.prefix "image/" (part_mimetype part) = true →
  upload_single host (Some part) w
  = (Val (Some {| originalname := part_originalname part;
                  filename := stored_name host part w;
                  mimetype := part_mimetype part;
                  size := Z.of_nat (String.length (part_content part));
                  path := stored_path host part w |}),
     {| table := table w;
        files := <[stored_path host part w := part_content part]> (files w);
        refused := refused w; ticks := S (ticks w); console := console w |}).
Proof.
  intros Hmime. unfold upload_single, fileFilter. rewrite Hmime. reflexivity.
Qed.

Lemma prefix_image_not_empty (mime : string) :
  String.prefix "image/" mime = true → mime ≠ "".
Proof. intros H ->. discriminate H. Qed.

Lemma length_not_zero (c : string) : c ≠ "" → Z.of_nat (String.length c) ≠ 0.
Proof. destruct c; [contradiction | simpl; lia]. Qed.

Lemma number_falsy_some (n : Z) : n ≠ 0 → number_falsy (Some n) = false.
Proof. intros Hn. cbn [number_falsy]. destruct (Z.eqb_spec n 0); [contradiction | reflexivity]. Qed.

Lemma getImageDimensions_run (host : Host) (file : UploadedFile) (c : content)
      (wd ht : Z) (w : World) :
  files w !! path file = Some c →
  imageSize host c = Val {| dim_width := Some wd; dim_height := Some ht |} →
  wd ≠ 0 → ht ≠ 0 →
  getImageDimensions host file w
  = (Val {| dim_width := Some wd; dim_height := Some ht |}, w).
Proof.
  intros Hfile Hsize Hwd Hht. unfold getImageDimensions, bind, fs_readFile.
  rewrite Hfile, Hsize. cbn [dim_width dim_height].
  rewrite (number_falsy_some wd Hwd), (number_falsy_some ht Hht). reflexivity.
Qed.

Lemma createFromFile_run (host : Host) (file : UploadedFile) (c : content)
      (wd ht : Z) (w : World) :
  files w !! path file = Some c →
  imageSize host c = Val {| dim_width := Some wd; dim_height := Some ht |} →
  wd ≠ 0 → ht ≠ 0 →
  createFromFile host (Some file) w
  = create (media_input (originalname file) (filename file) (mimetype file)
              wd ht (size file)
              (toISOString host (ticks w)) (toISOString host (S (ticks w))))
      {| table := table w; files := files w; refused := refused w;
         ticks := S (S (ticks w)); console := console w |}.
Proof.
  intros Hfile Hsize Hwd Hht. unfold createFromFile, bind.
  rewrite (getImageDimensions_run host file c wd ht w Hfile Hsize Hwd Hht).
  cbn [dim_width dim_height].
  rewrite (number_falsy_some wd Hwd), (number_falsy_some ht Hht).
  reflexivity.
Qed.

Lemma post_run (host : Host) (part : Part) (wd ht : Z) (w : World) :
  String.prefix "image/" (part_mimetype part) = true →
  imageSize host (part_content part)
    = Val {| dim_width := Some wd; dim_height := Some ht |} →
  wd ≠ 0 → ht ≠ 0 →
  part_originalname part ≠ "" →
  part_content part ≠ "" →
  stored_name host part w ≠ "" →
  app host (POST_media (Some part)) w
  = (sendApiResponse (DMedia (Some (uploaded_row host part wd ht w))) Created
       (Some "Media stored"),
     uploaded_world host part wd ht w).
Proof.
  intros Hmime Hsize Hwd Hht Hname Hcontent Hstored.
  cbn [app]. unfold route, api_post, bind.
  rewrite (upload_single_run host part w Hmime).
  erewrite createFromFile_run;
    [| cbn [path files]; apply lookup_insert_eq | exact Hsize | exact Hwd | exact Hht].
  cbn [table files refused ticks console originalname filename mimetype size].
  rewrite create_media_input;
    [reflexivity | exact Hname | exact Hstored
     | exact (prefix_image_not_empty _ Hmime) | exact Hwd | exact Hht
     | exact (length_not_zero _ Hcontent)].
Qed.

(** X11. The upload of a non-empty file with a name, declared as an
    image and decoded as [wd] by [ht] pixels, answers 201 with the new
    record: it is the last row of the table, under an identifier that no
    row had; it carries the client's name and type, the stored name, the
    decoded dimensions and the number of bytes; [createdAt] and
    [updatedAt] are two readings of the clock and [deletedAt] is null;
    the bytes are on the disk under the stored name. The stored name is
    taken to be new, as the table requires of it (schema.ts: unique). *)
Theorem post_stores_image (host : Host) (part : Part) (wd ht : Z) (w : World) :
  String.prefix "image/" (part_mimetype part) = true →
  imageSize host (part_content part)
    = Val {| dim_width := Some wd; dim_height := Some ht |} →
  wd ≠ 0 → ht ≠ 0 →
  part_originalname part ≠ "" →
  part_content part ≠ "" →
  stored_name host part w ≠ "" →
  (∀ x, x ∈ table w → storedFileName x ≠ stored_name host part w) →
  ∃ r w',
    app host (POST_media (Some part)) w
    = (sendApiResponse (DMedia (Some r)) Created (Some "Media stored"), w')
    ∧ table w' = (table w ++ [r])%list
    ∧ (∀ x, x ∈ table w → id x ≠ id r)
    ∧ originalFileName r = part_originalname part
    ∧ storedFileName r = stored_name host part w
    ∧ mimeType r = part_mimetype part
    ∧ width r = wd
    ∧ height r = ht
    ∧ fileSize r = Z.of_nat (String.length (part_content part))
    ∧ createdAt r = toISOString host (S (ticks w))
    ∧ updatedAt r = toISOString host (S (S (ticks w)))
    ∧ deletedAt r = None
    ∧ files w' !! path_join host "./uploads" (storedFileName r)
      = Some (part_content part).
Proof.
  intros Hmime Hsize Hwd Hht Hname Hcontent Hstored _.
  exists (uploaded_row host part wd ht w), (uploaded_world host part wd ht w).
  split; [apply post_run; assumption|].
  split; [reflexivity|].
  split; [intros x Hx; apply fresh_id_fresh, Hx|].
  do 9 (split; [reflexivity|]).
  cbn [uploaded_world uploaded_row files storedFileName].
  apply lookup_insert_eq.
Qed.

Lemma post_stores_image_witness :
  ∃ r w',
    app sample_host (POST_media (Some sample_part)) sample_world
    = (sendApiResponse (DMedia (Some r)) Created (Some "Media stored"), w')
    ∧ table w' = [sample_row; r]
    ∧ id r = 2 ∧ width r = 100 ∧ height r = 50 ∧ fileSize r = 9.
Proof.
  destruct (post_stores_image sample_host sample_part 100 50 sample_world)
    as (r & w' & Hrun & Ht & _ & _ & _ & _ & Hw & Hh & Hs & _);
    try (reflexivity || discriminate).
  - intros x Hx. apply list_elem_of_singleton in Hx. subst x. discriminate.
  - exists r, w'. split; [exact Hrun|]. split; [exact Ht|].
    split; [|split; [exact Hw | split; [exact Hh | exact Hs]]].
    pose proof (post_run sample_host sample_part 100 50 sample_world
                  eq_refl eq_refl ltac:(discriminate) ltac:(discriminate)
                  ltac:(discriminate) ltac:(discriminate) ltac:(discriminate)) as Hrun'.
    rewrite Hrun in Hrun'. injection Hrun' as -> _. reflexivity.
Defined.

(** X12. An upload declared as an image whose bytes cannot be decoded
    ([imageSize] throws, or gives no width or no height) is answered by
    the central error handler and adds no row; but the file was written
    before the decoding, and it stays on the disk: nothing removes it. *)
Theorem post_undecodable_keeps_file (host : Host) (part : Part) (w : World) :
  String.prefix "image/" (part_mimetype part) = true →
  (∀ d, imageSize host (part_content part) = Val d →
        number_falsy (dim_width d) || number_falsy (dim_height d) = true) →
  table (app host (POST_media (Some part)) w).2 = table w
  ∧ files (app host (POST_media (Some part)) w).2
    = <[stored_path host part w := part_content part]> (files w)
  ∧ ∃ err, (app host (POST_media (Some part)) w).1 = errorHandler err.
Proof.
  intros Hmime Hbad. cbn [app]. unfold route, api_post, bind.
  rewrite (upload_single_run host part w Hmime).
  unfold createFromFile, getImageDimensions, bind, fs_readFile.
  cbn [path files]. rewrite lookup_insert_eq.
  destruct (imageSize host (part_content part)) as [d|e] eqn:E.
  - rewrite (Hbad d eq_refl).
    split; [reflexivity|]. split; [reflexivity|]. eexists. reflexivity.
  - split; [reflexivity|]. split; [reflexivity|]. eexists. reflexivity.
Qed.

Lemma post_undecodable_keeps_file_witness :
  table (app undecodable_host (POST_media (Some sample_part)) sample_world).2
    = table sample_world
  ∧ files (app undecodable_host (POST_media (Some sample_part)) sample_world).2
    = <[stored_path undecodable_host sample_part sample_world
        := part_content sample_part]> (files sample_world).
Proof.
  destruct (post_undecodable_keeps_file undecodable_host sample_part sample_world)
    as (Ht & Hf & _).
  - reflexivity.
  - intros d H. discriminate H.
  - split; [exact Ht | exact Hf].
Defined.

Lemma filter_app_fresh (t : list Media) (r : Media) :
  id r = fresh_id t →
  List.filter (has_id (id r)) (t ++ [r]) = [r]
  ∧ List.filter (λ x, negb (has_id (id r) x)) (t ++ [r]) = t
  ∧ List.find (has_id (id r)) (t ++ [r]) = Some r.
Proof.
  intros Hid.
  assert (Hno : ∀ x, x ∈ t → has_id (id r) x = false).
  { intros x Hx. unfold has_id. apply Z.eqb_neq. rewrite Hid.
    apply fresh_id_fresh, Hx. }
  assert (Hr : has_id (id r) r = true) by apply Z.eqb_refl.
  clear Hid. induction t as [|x t IH]; simpl.
  - rewrite Hr. simpl. repeat split.
  - rewrite (Hno x) by left. simpl.
    destruct IH as (IH1 & IH2 & IH3); [intros y Hy; apply Hno; right; exact Hy|].
    rewrite IH1, IH2, IH3. repeat split.
Qed.

(** X13. Upload, then hard delete of the record just created: when the
    stored path was free and the system lets the file go, the table and
    the disk are back to what they were before the upload, and exactly
    one row was deleted. *)
Theorem post_then_remove (host : Host) (part : Part) (wd ht : Z) (w : World) :
  String.prefix "image/" (part_mimetype part) = true →
  imageSize host (part_content part)
    = Val {| dim_width := Some wd; dim_height := Some ht |} →
  wd ≠ 0 → ht ≠ 0 →
  part_originalname part ≠ "" →
  part_content part ≠ "" →
  stored_name host part w ≠ "" →
  (∀ x, x ∈ table w → storedFileName x ≠ stored_name host part w) →
  files w !! stored_path host part w = None →
  refused w !! stored_path host part w = None →
  ∃ r w' w'',
    app host (POST_media (Some part)) w
    = (sendApiResponse (DMedia (Some r)) Created (Some "Media stored"), w')
    ∧ remove host (id r) w' = (Val 1%nat, w'')
    ∧ table w'' = table w
    ∧ files w'' = files w.
Proof.
  intros Hmime Hsize Hwd Hht Hname Hcontent Hstored _ Hfree Hlet.
  exists (uploaded_row host part wd ht w), (uploaded_world host part wd ht w).
  eexists. split; [apply post_run; assumption|].
  destruct (filter_app_fresh (table w) (uploaded_row host part wd ht w) eq_refl)
    as (Hone & Hrest & Hfind).
  rewrite (remove_found host _ (uploaded_world host part wd ht w)
             (uploaded_row host part wd ht w) Hfind).
  cbn [uploaded_world table]. rewrite Hone. cbn [length].
  split; [reflexivity|].
  unfold after_remove. cbn [table files refused uploaded_row storedFileName].
  split; [exact Hrest|].
  change (path_join host "./uploads" (stored_name host part w))
    with (stored_path host part w).
  change (refused (uploaded_world host part wd ht w)) with (refused w).
  change (files (uploaded_world host part wd ht w))
    with (<[stored_path host part w := part_content part]> (files w)).
  rewrite Hlet, delete_insert_eq. apply delete_id, Hfree.
Qed.

Lemma post_then_remove_witness :
  ∃ r w' w'',
    app sample_host (POST_media (Some sample_part)) sample_world
    = (sendApiResponse (DMedia (Some r)) Created (Some "Media stored"), w')
    ∧ remove sample_host (id r) w' = (Val 1%nat, w'')
    ∧ table w'' = table sample_world
    ∧ files w'' = files sample_world.
Proof.
  apply (post_then_remove sample_host sample_part 100 50 sample_world);
    try (reflexivity || discriminate).
  intros x Hx. apply list_elem_of_singleton in Hx. subst x. discriminate.
Defined.

(** ** Relations that every step keeps *)

Section Within.
Context (R : World → World → Prop).
Hypothesis R_refl : ∀ w, R w w.
Hypothesis R_trans : ∀ a b c, R a b → R b c → R a c.

Lemma within_ret {A} (a : A) : within R (ret a).
Proof. intros w. apply R_refl. Qed.

Lemma within_throw {A} (e : exn) : within R (throw (A := A) e).
Proof. intros w. apply R_refl. Qed.

Lemma within_bind {A B} (m : M A) (k : A → M B) :
  within R m → (∀ a, within R (k a)) → within R (bind m k).
Proof.
  intros Hm Hk w. unfold bind. specialize (Hm w).
  destruct (m w) as [[a|e] w1]; cbn [snd] in *.
  - eapply R_trans; [exact Hm | apply Hk].
  - exact Hm.
Qed.

Lemma within_try_catch {A} (m : M A) (h : exn → M A) :
  within R m → (∀ e, within R (h e)) → within R (try_catch m h).
Proof.
  intros Hm Hh w. unfold try_catch. specialize (Hm w).
  destruct (m w) as [[a|e] w1]; cbn [snd] in *.
  - exact Hm.
  - eapply R_trans; [exact Hm | apply Hh].
Qed.

Lemma within_route (handler : M Response) (w : World) :
  within R handler → R w (route handler w).2.
Proof.
  intros H. unfold route. specialize (H w).
  destruct (handler w) as [[r|e] w1]; exact H.
Qed.

Lemma within_get_table : within R get_table.
Proof. intros w. apply R_refl. Qed.

Lemma within_db_select (i : Z) : within R (db_select i).
Proof. intros w. apply R_refl. Qed.

Lemma within_db_select_limit1 (i : Z) : within R (db_select_limit1 i).
Proof. intros w. apply R_refl. Qed.

Lemma within_param_id (raw : string) : within R (param_id raw).
Proof. intros w. unfold param_id. destruct (parseInt raw); apply R_refl. Qed.

Lemma within_validateCreate (data : gmap string value) : within R (validateCreate data).
Proof.
  intros w. destruct (validateCreate_outcome data w) as [-> | [m ->]]; apply R_refl.
Qed.

Lemma within_validateUpdate (data : gmap string value) : within R (validateUpdate data).
Proof.
  intros w. destruct (validateUpdate_outcome data w) as [-> | [m ->]]; apply R_refl.
Qed.

End Within.

(** *** The primary key *)

Lemma key_kept_refl (w : World) : key_kept w w.
Proof. intros H. exact H. Qed.

Lemma key_kept_trans (a b c : World) : key_kept a b → key_kept b c → key_kept a c.
Proof. unfold key_kept. auto. Qed.

Lemma key_kept_ids (w w' : World) :
  List.map id (table w') = List.map id (table w) → key_kept w w'.
Proof. intros E H. rewrite E. exact H. Qed.

Lemma NoDup_map_filter {A B} (f : A → B) (p : A → bool) (l : list A) :
  NoDup (List.map f l) → NoDup (List.map f (List.filter p l)).
Proof.
  induction l as [|x l IH]; simpl; [auto|].
  intros H. apply NoDup_cons in H as [Hx Hl].
  destruct (p x); simpl; [|auto].
  apply NoDup_cons. split; [|auto].
  intros Hin. apply Hx.
  apply list_elem_of_In, List.in_map_iff in Hin as (y & Hy & Hin).
  apply List.filter_In in Hin as [Hin _].
  apply list_elem_of_In, List.in_map_iff. exists y. split; assumption.
Qed.

Lemma new_row_id (i : Z) (c : Columns) (r : Media) : new_row i c = Some r → id r = i.
Proof. unfold new_row. intros H. simplify_option_eq. reflexivity. Qed.

Lemma key_kept_db_insert (v : gmap string value) : within key_kept (db_insert v).
Proof.
  intros w. unfold db_insert, bind, get_table.
  destruct (bind_columns v) as [c|]; [|apply key_kept_refl].
  destruct (new_row _ c) as [r|] eqn:Hr; [|apply key_kept_refl].
  destruct (existsb _ (table w)) eqn:Hex; [apply key_kept_refl|].
  apply new_row_id in Hr.
  unfold put_table, ret; cbn [snd fst table]. intros Hnd.
  cbn [table]. rewrite List.map_app. cbn [List.map]. apply NoDup_app. split; [exact Hnd|]. split.
  - intros x Hx Hx'. apply list_elem_of_singleton in Hx'. subst x.
    apply list_elem_of_In, List.in_map_iff in Hx as (y & Hy & Hin).
    assert (E : existsb (has_id (default (fresh_id (table w)) (set_id c))) (table w) = true).
    { apply List.existsb_exists. exists y. split; [exact Hin|].
      apply Z.eqb_eq. congruence. }
    congruence.
  - apply NoDup_singleton.
Qed.

Lemma key_kept_bind {A B} (m : M A) (k : A → M B) :
  within key_kept m → (∀ a, within key_kept (k a)) → within key_kept (bind m k).
Proof. apply within_bind, key_kept_trans. Qed.

Lemma key_kept_create (model : gmap string value) : within key_kept (create model).
Proof.
  unfold create. apply key_kept_bind.
  - apply within_validateCreate, key_kept_refl.
  - intros _. apply key_kept_bind.
    + apply key_kept_db_insert.
    + intros a. apply within_ret, key_kept_refl.
Qed.

Lemma key_kept_update (model : gmap string value) : within key_kept (update model).
Proof.
  intros w. destruct (update model w) as [o w'] eqn:E. cbn [snd].
  apply key_kept_ids. exact (update_preserves_ids _ _ _ _ E).
Qed.

Lemma map_id_rows_changed (i : Z) (u : string) (d : option string) (t : list Media) :
  List.map id (rows_changed i (with_timestamps u d) t) = List.map id t.
Proof.
  unfold rows_changed. rewrite List.map_map. apply List.map_ext.
  intros r. destruct (has_id i r); reflexivity.
Qed.

Lemma key_kept_same_table {A} (m : M A) :
  (∀ w, table (m w).2 = table w) → within key_kept m.
Proof. intros H w. apply key_kept_ids. rewrite H. reflexivity. Qed.

Lemma key_kept_softDelete (host : Host) (i : Z) : within key_kept (softDelete host i).
Proof.
  intros w. apply key_kept_ids.
  destruct (List.find (has_id i) (table w)) as [r|] eqn:Hfind.
  - destruct (deletedAt r) as [d|] eqn:Hdel.
    + rewrite (softDelete_deleted host i w r d Hfind Hdel). reflexivity.
    + rewrite (softDelete_active host i w r Hfind Hdel). apply map_id_rows_changed.
  - rewrite (softDelete_missing host i w Hfind). reflexivity.
Qed.

Lemma key_kept_restore (host : Host) (i : Z) : within key_kept (restore host i).
Proof.
  intros w. apply key_kept_ids.
  destruct (List.find (has_id i) (table w)) as [r|] eqn:Hfind.
  - destruct (deletedAt r) as [d|] eqn:Hdel.
    + rewrite (restore_deleted host i w r d Hfind Hdel). apply map_id_rows_changed.
    + rewrite (restore_active host i w r Hfind Hdel). reflexivity.
  - rewrite (restore_missing host i w Hfind). reflexivity.
Qed.

Lemma key_kept_remove (host : Host) (i : Z) : within key_kept (remove host i).
Proof.
  intros w.
  destruct (List.find (has_id i) (table w)) as [r|] eqn:Hfind.
  - rewrite (remove_found host i w r Hfind). intros Hnd.
    unfold after_remove; cbn [snd table]. apply NoDup_map_filter, Hnd.
  - rewrite (remove_missing host i w Hfind). apply key_kept_refl.
Qed.

Lemma getImageDimensions_world (host : Host) (file : UploadedFile) (w : World) :
  (getImageDimensions host file w).2 = w.
Proof.
  unfold getImageDimensions, bind, fs_readFile.
  destruct (files w !! path file); [|reflexivity].
  destruct (imageSize host c) as [d|e]; [|reflexivity].
  destruct (_ || _); reflexivity.
Qed.

Lemma key_kept_createFromFile (host : Host) (upload : option UploadedFile) :
  within key_kept (createFromFile host upload).
Proof.
  unfold createFromFile. destruct upload as [file|];
    [|apply within_throw, key_kept_refl].
  apply key_kept_bind.
  - intros w. rewrite getImageDimensions_world. apply key_kept_refl.
  - intros d. destruct (_ || _); [apply within_throw, key_kept_refl|].
    apply key_kept_bind; [apply key_kept_same_table; reflexivity|]. intros created.
    apply key_kept_bind; [apply key_kept_same_table; reflexivity|]. intros updated.
    apply key_kept_create.
Qed.

Lemma upload_single_table (host : Host) (part : option Part) (w : World) :
  table (upload_single host part w).2 = table w.
Proof.
  unfold upload_single. destruct part as [file|]; [|reflexivity].
  destruct (fileFilter file) as [[|]|e]; reflexivity.
Qed.

(** X14. No request ever makes two rows share an identifier: if the
    identifiers of the table are pairwise distinct before a request, they
    are pairwise distinct after it, whatever the request and whether it
    succeeds or fails. *)
Theorem app_keeps_key (host : Host) (req : Request) (w : World) :
  NoDup (List.map id (table w)) →
  NoDup (List.map id (table (app host req w).2)).
Proof.
  change (key_kept w (app host req w).2).
  destruct req; cbn [app]; try apply key_kept_refl; apply within_route;
    unfold api_get, api_post, api_put, api_delete, api_soft_delete, api_restore.
  - apply key_kept_bind;
      [apply key_kept_same_table; intros w0; apply upload_single_table|].
    intros [file|]; [|apply within_throw, key_kept_refl].
    apply key_kept_bind; [apply key_kept_createFromFile|].
    intros a. apply within_ret, key_kept_refl.
  - apply key_kept_bind; [apply within_param_id, key_kept_refl|]. intros i.
    apply key_kept_bind.
    + unfold createOrUpdate. destruct (prop_truthy _);
        [apply key_kept_update | apply key_kept_create].
    + intros [row|]; [apply within_ret | apply within_throw]; apply key_kept_refl.
  - apply key_kept_bind; [apply within_param_id, key_kept_refl|]. intros i.
    apply key_kept_bind; [apply key_kept_remove|]. intros n.
    destruct (Nat.eqb n 0); [apply within_throw | apply within_ret]; apply key_kept_refl.
  - apply key_kept_bind; [apply within_param_id, key_kept_refl|]. intros i.
    apply key_kept_bind; [apply key_kept_softDelete|].
    intros [row|]; [apply within_ret | apply within_throw]; apply key_kept_refl.
  - apply key_kept_bind; [apply within_param_id, key_kept_refl|]. intros i.
    apply key_kept_bind; [apply key_kept_restore|].
    intros [row|]; [apply within_ret | apply within_throw]; apply key_kept_refl.
Qed.

Lemma app_keeps_key_witness :
  NoDup (List.map id (table (app sample_host (POST_media (Some sample_part))
                               sample_world).2)).
Proof.
  apply (app_keeps_key sample_host (POST_media (Some sample_part)) sample_world).
  simpl. apply NoDup_cons. split; [apply not_elem_of_nil | apply NoDup_nil_2].
Defined.

(** *** The disk *)

Lemma same_disk_refl (w : World) : same_disk w w.
Proof. repeat split. Qed.

Lemma same_disk_trans (a b c : World) : same_disk a b → same_disk b c → same_disk a c.
Proof.
  unfold same_disk. intros (H1 & H2 & H3) (H4 & H5 & H6).
  repeat split; congruence.
Qed.

Lemma same_disk_bind {A B} (m : M A) (k : A → M B) :
  within same_disk m → (∀ a, within same_disk (k a)) → within same_disk (bind m k).
Proof. apply within_bind, same_disk_trans. Qed.

Lemma same_disk_db_update (c : Columns) (i : Z) : within same_disk (db_update c i).
Proof. intros w. repeat split. Qed.

Lemma same_disk_db_insert (v : gmap string value) : within same_disk (db_insert v).
Proof.
  intros w. unfold db_insert, bind, get_table.
  destruct (bind_columns v) as [c|]; [|apply same_disk_refl].
  destruct (new_row _ c) as [r|]; [|apply same_disk_refl].
  destruct (existsb _ (table w)); repeat split.
Qed.

Lemma same_disk_create (model : gmap string value) : within same_disk (create model).
Proof.
  unfold create. apply same_disk_bind.
  - apply within_validateCreate, same_disk_refl.
  - intros _. apply same_disk_bind; [apply same_disk_db_insert|].
    intros a. apply within_ret, same_disk_refl.
Qed.

Lemma same_disk_update (model : gmap string value) : within same_disk (update model).
Proof.
  unfold update. apply same_disk_bind.
  - apply within_validateUpdate, same_disk_refl.
  - intros _. apply same_disk_bind.
    + unfold db_update_values.
      destruct (bind_columns _) as [c|]; [|apply within_throw, same_disk_refl].
      destruct (model !! "id") as [[| |i| | |]|];
        try (apply within_throw, same_disk_refl).
      apply same_disk_db_update.
    + intros [|r l]; [apply within_throw | apply within_ret]; apply same_disk_refl.
Qed.

Lemma same_disk_softDelete (host : Host) (i : Z) : within same_disk (softDelete host i).
Proof.
  intros w.
  destruct (List.find (has_id i) (table w)) as [r|] eqn:Hfind.
  - destruct (deletedAt r) as [d|] eqn:Hdel.
    + rewrite (softDelete_deleted host i w r d Hfind Hdel). apply same_disk_refl.
    + rewrite (softDelete_active host i w r Hfind Hdel). repeat split.
  - rewrite (softDelete_missing host i w Hfind). apply same_disk_refl.
Qed.

Lemma same_disk_restore (host : Host) (i : Z) : within same_disk (restore host i).
Proof.
  intros w.
  destruct (List.find (has_id i) (table w)) as [r|] eqn:Hfind.
  - destruct (deletedAt r) as [d|] eqn:Hdel.
    + rewrite (restore_deleted host i w r d Hfind Hdel). repeat split.
    + rewrite (restore_active host i w r Hfind Hdel). apply same_disk_refl.
  - rewrite (restore_missing host i w Hfind). apply same_disk_refl.
Qed.

(** X15. Only an upload and a hard delete reach the disk: a request that
    is neither POST nor DELETE leaves every file, and the console, as they
    were, whatever it does to the table and whether it succeeds or
    fails. *)
Theorem disk_untouched (host : Host) (req : Request) (w : World) :
  match req with
  | POST_media _ | DELETE_media _ => True
  | _ => same_disk w (app host req w).2
  end.
Proof.
  destruct req; try exact I; cbn [app]; try apply same_disk_refl;
    apply within_route; unfold api_put, api_soft_delete, api_restore.
  - apply same_disk_bind; [apply within_param_id, same_disk_refl|]. intros i.
    apply same_disk_bind.
    + unfold createOrUpdate. destruct (prop_truthy _);
        [apply same_disk_update | apply same_disk_create].
    + intros [row|]; [apply within_ret | apply within_throw]; apply same_disk_refl.
  - apply same_disk_bind; [apply within_param_id, same_disk_refl|]. intros i.
    apply same_disk_bind; [apply same_disk_softDelete|].
    intros [row|]; [apply within_ret | apply within_throw]; apply same_disk_refl.
  - apply same_disk_bind; [apply within_param_id, same_disk_refl|]. intros i.
    apply same_disk_bind; [apply same_disk_restore|].
    intros [row|]; [apply within_ret | apply within_throw]; apply same_disk_refl.
Qed.

(** ** The modify route *)

Lemma union_id_present (o : gmap string value) (v x : value) :
  o !! "id" = Some v → o ∪ {[ "id" := x ]} = o.
Proof.
  intros Hid. apply map_eq. intros k.
  destruct (o !! k) as [y|] eqn:E.
  - exact (lookup_union_Some_l _ _ _ _ E).
  - rewrite lookup_union_r by exact E.
    apply lookup_singleton_ne. intros <-. congruence.
Qed.

Lemma union_id_absent (o : gmap string value) (x : value) (k : string) :
  k ≠ "id" → (o ∪ {[ "id" := x ]}) !! k = o !! k.
Proof.
  intros Hk. destruct (o !! k) as [y|] eqn:E.
  - exact (lookup_union_Some_l _ _ _ _ E).
  - rewrite lookup_union_r by exact E. apply lookup_singleton_ne. congruence.
Qed.

Lemma delete_union_id (o : gmap string value) (x : value) :
  o !! "id" = None → delete "id" (o ∪ {[ "id" := x ]}) = o.
Proof.
  intros Hid. apply map_eq. intros k.
  destruct (decide (k = "id")) as [->|Hk].
  - rewrite lookup_delete_eq, Hid. reflexivity.
  - rewrite lookup_delete_ne by congruence. apply union_id_absent, Hk.
Qed.

(** X16. The body wins over the path: the route builds [{ id, ...body }],
    so when the body carries an [id] of its own the identifier in the
    path, once it is numeric, plays no part in what PUT does. *)
Theorem put_body_id_wins (host : Host) (raw raw' : string) (i j : Z)
        (req_body : gmap string value) (w : World) :
  parseInt raw = Some i →
  parseInt raw' = Some j →
  is_Some (req_body !! "id") →
  app host (PUT_media raw req_body) w = app host (PUT_media raw' req_body) w.
Proof.
  intros Hi Hj [v Hv]. cbn [app]. unfold route, api_put, bind.
  rewrite (param_id_run _ _ _ Hi), (param_id_run _ _ _ Hj).
  rewrite (union_id_present _ v (VNum i) Hv), (union_id_present _ v (VNum j) Hv).
  reflexivity.
Qed.

Lemma put_body_id_wins_witness :
  app sample_host (PUT_media "1" {[ "id" := VNum 7 ]}) sample_world
  = app sample_host (PUT_media "2" {[ "id" := VNum 7 ]}) sample_world.
Proof.
  apply (put_body_id_wins sample_host "1" "2" 1 2); [reflexivity | reflexivity |].
  exists (VNum 7). reflexivity.
Defined.

(** X17. [update] never changes an identifier and never adds or drops a
    row, whatever it is given and whether it succeeds or fails: the list
    of the identifiers of the table is the same after it. *)
Theorem update_keeps_identifiers (model : gmap string value) (w : World) :
  List.map id (table (update model w).2) = List.map id (table w).
Proof.
  destruct (update model w) as [o w'] eqn:E.
  exact (update_preserves_ids model w w' o E).
Qed.

Lemma bind_columns_numbers (o : gmap string value) (c : Columns) :
  bind_columns o = Some c →
  defined_not_number (o !! "width") = false
  ∧ defined_not_number (o !! "height") = false.
Proof.
  unfold bind_columns. intros H.
  destruct (o !! "width") as [[| |n| | |]|], (o !! "height") as [[| |m| | |]|];
    cbn [bind_integer] in H; simplify_option_eq; split; reflexivity.
Qed.

(** X18. PUT to an identifier other than 0 that no row has, with a body
    that carries no [id] and sets at least one column, each to a value
    that fits it, answers 404 with the message of [update], and the table
    is as it was. *)
Theorem put_missing_answers_404 (host : Host) (raw : string) (i : Z)
        (req_body : gmap string value) (c : Columns) (w : World) :
  parseInt raw = Some i →
  i ≠ 0 →
  req_body !! "id" = None →
  bind_columns req_body = Some c →
  c ≠ no_columns →
  List.find (has_id i) (table w) = None →
  (app host (PUT_media raw req_body) w).1
    = sendApiResponse DNull NotFound (Some "No record found with the provided id")
  ∧ table (app host (PUT_media raw req_body) w).2 = table w.
Proof.
  intros Hraw Hi Hno Hc _ Hnone. cbn [app]. unfold route, api_put, bind.
  rewrite (param_id_run _ _ _ Hraw). cbv beta iota.
  set (model := req_body ∪ {[ "id" := VNum i ]}).
  assert (Hid : model !! "id" = Some (VNum i)).
  { subst model. rewrite lookup_union_r by exact Hno. apply lookup_singleton_eq. }
  unfold createOrUpdate. rewrite Hid. cbn [prop_truthy truthy].
  destruct (Z.eqb_spec i 0) as [|_]; [contradiction|]. cbn [negb].
  assert (Hdel : delete "id" model = req_body) by apply delete_union_id, Hno.
  destruct (bind_columns_numbers _ _ Hc) as [Hw Hh].
  assert (Hval : validateUpdate model w = (Val tt, w)).
  { unfold validateUpdate. subst model.
    rewrite !union_id_absent by discriminate. rewrite Hw, Hh. reflexivity. }
  destruct (update_missing model i c w Hval Hid) as (w' & Hrun & Ht);
    [rewrite Hdel; exact Hc | exact Hnone |].
  rewrite Hrun. cbn [fst snd]. split; [reflexivity | exact Ht].
Qed.

Lemma put_missing_answers_404_witness :
  (app sample_host (PUT_media "7" typed_body) sample_world).1
  = sendApiResponse DNull NotFound (Some "No record found with the provided id").
Proof.
  refine (proj1 (put_missing_answers_404 sample_host "7" 7 typed_body
                   {| set_id := None; set_originalFileName := Some "b.png";
                      set_storedFileName := None; set_mimeType := None;
                      set_width := None; set_height := None; set_fileSize := None;
                      set_createdAt := None; set_updatedAt := None;
                      set_deletedAt := None |} sample_world _ _ _ _ _ _));
    try reflexivity; discriminate.
Defined.

Lemma validateCreate_reports (data : gmap string value) (field : string) (w : World) :
  first_missing data = Some field →
  validateCreate data w = (Thrown (Error ("Missing " +:+ field)), w).
Proof.
  unfold first_missing, validateCreate.
  repeat (match goal with
          | |- context [if negb ?b then _ else _] =>
              destruct b; cbn [negb]; [|intros [= <-]; reflexivity]
          end).
  discriminate.
Qed.

(** X19. PUT /media/0 is a creation, and a creation wants the six
    required properties to be present and truthy: when the body lacks one
    of them (or holds 0 or the empty string for it) the answer is 500 with
    the message "Missing " followed by the name of the first such
    property in the order originalFileName, storedFileName, mimeType,
    width, height, fileSize, and nothing at all has changed. *)
Theorem put_zero_incomplete_body (host : Host) (req_body : gmap string value)
        (field : string) (w : World) :
  req_body !! "id" = None →
  first_missing req_body = Some field →
  app host (PUT_media "0" req_body) w
  = (sendApiResponse DNull InternalServerError (Some ("Missing " +:+ field)), w).
Proof.
  intros Hno Hfield. cbn [app]. unfold route, api_put, bind.
  change (param_id "0" w) with (Val 0, w). cbv beta iota.
  set (model := req_body ∪ {[ "id" := VNum 0 ]}).
  assert (Hid : model !! "id" = Some (VNum 0)).
  { subst model. rewrite lookup_union_r by exact Hno. apply lookup_singleton_eq. }
  unfold createOrUpdate. rewrite Hid. cbn [prop_truthy truthy Z.eqb negb].
  assert (Hfield' : first_missing model = Some field).
  { rewrite <- Hfield. unfold first_missing. subst model.
    rewrite !union_id_absent by discriminate. reflexivity. }
  unfold create, bind. rewrite (validateCreate_reports model field w Hfield').
  reflexivity.
Qed.

Lemma put_zero_incomplete_body_witness :
  app sample_host (PUT_media "0" typed_body) sample_world
  = (sendApiResponse DNull InternalServerError (Some "Missing storedFileName"),
     sample_world)
  ∧ app sample_host (PUT_media "0" ∅) sample_world
    = (sendApiResponse DNull InternalServerError (Some "Missing originalFileName"),
       sample_world).
Proof.
  split.
  - apply (put_zero_incomplete_body sample_host typed_body "storedFileName"
             sample_world); reflexivity.
  - apply (put_zero_incomplete_body sample_host ∅ "originalFileName"
             sample_world); reflexivity.
Defined.

Lemma update_found (model : gmap string value) (i : Z) (c : Columns) (r : Media)
      (w : World) :
  validateUpdate model w = (Val tt, w) →
  model !! "id" = Some (VNum i) →
  bind_columns (delete "id" model) = Some c →
  List.find (has_id i) (table w) = Some r →
  update model w
  = (Val (Some (write_columns c r)),
     {| table := rows_changed i (write_columns c) (table w);
        files := files w; refused := refused w;
        ticks := ticks w; console := console w |}).
Proof.
  intros Hv Hid Hc Hfind. unfold update, bind. rewrite Hv.
  unfold db_update_values. rewrite Hc, Hid.
  unfold db_update, get_table, put_table, bind, ret. cbn [table files refused ticks console].
  pose proof (head_map_filter (has_id i) (write_columns c) (table w)) as Hhead.
  rewrite Hfind in Hhead. cbn [fmap option_fmap option_map] in Hhead.
  destruct (List.map (write_columns c) (List.filter (has_id i) (table w)))
    as [|x l]; [discriminate Hhead|].
  cbn [head] in Hhead. injection Hhead as ->. reflexivity.
Qed.

(** X20. PUT to an identifier other than 0 that a row has, with a body
    that carries no [id] and no [storedFileName] and sets at least one
    column, each to a value that fits it, answers 200 with the payload
    [{ message: "Media updated" }] (not the record). The rows with that
    identifier get the columns of the body and keep every other column,
    [updatedAt] included; the other rows, the clock and the disk are as
    they were. *)
Theorem put_writes_columns (host : Host) (raw : string) (i : Z)
        (req_body : gmap string value) (c : Columns) (r : Media) (w : World) :
  parseInt raw = Some i →
  i ≠ 0 →
  req_body !! "id" = None →
  req_body !! "storedFileName" = None →
  bind_columns req_body = Some c →
  c ≠ no_columns →
  List.find (has_id i) (table w) = Some r →
  app host (PUT_media raw req_body) w
  = (sendApiResponse (DMessage "Media updated") OK None,
     {| table := rows_changed i (write_columns c) (table w);
        files := files w; refused := refused w;
        ticks := ticks w; console := console w |})
  ∧ set_id c = None
  ∧ (req_body !! "updatedAt" = None → set_updatedAt c = None).
Proof.
  intros Hraw Hi Hno _ Hc _ Hfind.
  split; [|split].
  - cbn [app]. unfold route, api_put, bind.
    rewrite (param_id_run _ _ _ Hraw). cbv beta iota.
    set (model := req_body ∪ {[ "id" := VNum i ]}).
    assert (Hid : model !! "id" = Some (VNum i)).
    { subst model. rewrite lookup_union_r by exact Hno. apply lookup_singleton_eq. }
    unfold createOrUpdate. rewrite Hid. cbn [prop_truthy truthy].
    destruct (Z.eqb_spec i 0) as [|_]; [contradiction|]. cbn [negb].
    assert (Hdel : delete "id" model = req_body) by apply delete_union_id, Hno.
    destruct (bind_columns_numbers _ _ Hc) as [Hw Hh].
    assert (Hval : validateUpdate model w = (Val tt, w)).
    { unfold validateUpdate. subst model.
      rewrite !union_id_absent by discriminate. rewrite Hw, Hh. reflexivity. }
    rewrite (update_found model i c r w Hval Hid); [reflexivity | | exact Hfind].
    rewrite Hdel. exact Hc.
  - assert (Hc' : bind_columns (delete "id" req_body) = Some c).
    { rewrite delete_id by exact Hno. exact Hc. }
    exact (bind_columns_delete_id _ _ Hc').
  - intros Hu. exact (bind_columns_updatedAt _ _ Hu Hc).
Qed.

Lemma put_writes_columns_witness :
  app sample_host (PUT_media "1" typed_body) sample_world
  = (sendApiResponse (DMessage "Media updated") OK None,
     {| table := rows_changed 1
                   (write_columns
                      {| set_id := None; set_originalFileName := Some "b.png";
                         set_storedFileName := None; set_mimeType := None;
                         set_width := None; set_height := None;
                         set_fileSize := None; set_createdAt := None;
                         set_updatedAt := None; set_deletedAt := None |})
                   (table sample_world);
        files := files sample_world; refused := refused sample_world;
        ticks := ticks sample_world; console := console sample_world |}).
Proof.
  refine (proj1 (put_writes_columns sample_host "1" 1 typed_body _ sample_row
                   sample_world _ _ _ _ _ _ _));
    try reflexivity; discriminate.
Defined.

(** ** Soft-deleted records *)

(** X21. A soft-deleted record is still listed and can still be
    hard-deleted: after a soft delete that succeeded, GET / answers 200
    with the whole table, in which the record appears with its
    [deletedAt] set, and [remove] of the same identifier succeeds. *)
Theorem soft_deleted_still_there (host : Host) (i : Z) (w w1 : World) (o : option Media) :
  softDelete host i w = (Val o, w1) →
  app host GET_media w1 = (sendApiResponse (DList (table w1)) OK None, w1)
  ∧ (∃ r d, r ∈ table w1 ∧ id r = i ∧ deletedAt r = Some d)
  ∧ ∃ n w2, remove host i w1 = (Val n, w2).
Proof.
  intros H. apply softDelete_returns in H as (r & Hfind & Hdel & Ht).
  assert (Hfind1 : List.find (has_id i) (table w1)
                   = Some (with_timestamps (toISOString host (S (ticks w)))
                             (Some (toISOString host (ticks w))) r)).
  { rewrite Ht. apply find_rows_changed; [reflexivity | exact Hfind]. }
  split; [reflexivity|]. split.
  - eexists _, _. destruct (find_has_id_some _ _ _ Hfind1) as [Hin Hid].
    split; [exact Hin|]. split; [exact Hid | reflexivity].
  - eexists _, _. apply (remove_found host i w1 _ Hfind1).
Qed.

Lemma soft_deleted_still_there_witness :
  ∃ o w1,
    softDelete sample_host 1 sample_world = (Val o, w1)
    ∧ ∃ r d, r ∈ table w1 ∧ id r = 1 ∧ deletedAt r = Some d.
Proof.
  eexists _, _. split; [reflexivity|].
  eapply (proj1 (proj2 (soft_deleted_still_there sample_host 1 sample_world
                          _ _ eq_refl))).
Defined.
